(** * wamd: the multi-device client protocol (src/wamd/protocol.py)

    A shallow embedding of [MultiDeviceWhatsAppClientProtocol],
    [MultiDeviceWhatsAppClientFactory] and [FailureHandler]
    (src/wamd/handlers/failure.py).  The connection object, its factory
    and the objects they share (Deferreds, the websocket, the event
    listeners) are explicit state; a method is a computation in a small
    state-and-exception monad, so that what a method has already mutated
    when it raises is still there afterwards, as in Python. *)

From Stdlib Require Import ZArith List String Ascii Lia Bool.
From Stdlib Require Import Strings.Byte.
From stdpp Require Import base option list gmap strings pretty.
Import ListNotations.

Local Open Scope Z_scope.
Local Open Scope string_scope.
Local Open Scope list_scope.

(** ** Bytes *)

Abbreviation bytes := (list byte).

Definition byte_val (b : byte) : Z := Z.of_N (Byte.to_N b).

Definition byte_of_Z (z : Z) : byte :=
  match Byte.of_N (Z.to_N (z mod 256)) with
  | Some b => b
  | None => x00
  end.

#[global] Instance byte_eq_dec : EqDecision byte.
Proof.
  intros x y. destruct (decide (Byte.to_N x = Byte.to_N y)) as [E|E].
  - left. apply (f_equal Byte.of_N) in E. rewrite !Byte.of_to_N in E.
    congruence.
  - right. congruence.
Defined.

(** Python's [b[i:j]] for [0 <= i], [0 <= j]: out-of-range bounds are
    clipped, never an error. *)
Definition slice (i j : Z) (b : bytes) : bytes :=
  take (Z.to_nat j - Z.to_nat i)%nat (drop (Z.to_nat i) b).

(** Python's [b[i:]] for [0 <= i]. *)
Definition slice_from (i : Z) (b : bytes) : bytes := drop (Z.to_nat i) b.

(** Modelled from the spec: [decodeInt] of wamd/coder.py, which is not
    among the sources.  The spec fixes it as the big-endian reading of a
    length prefix ("a big-endian 24-bit length followed by that many
    bytes"): the first [length] bytes of [data], most significant first. *)
Definition decodeInt (data : bytes) (length : Z) : Z :=
  fold_left (fun acc b => acc * 256 + byte_val b)
            (take (Z.to_nat length) data) 0.

(** Modelled from the spec: [encodeInt] of wamd/coder.py, which is not
    among the sources.  The spec fixes it as the big-endian writing of
    [value] on [length] bytes ("eRegid as 32-bit big-endian of
    registrationId", "24-bit length prefix"). *)
Fixpoint encodeInt_nat (value : Z) (length : nat) : bytes :=
  match length with
  | O => []
  | S n => encodeInt_nat (value / 256) n ++ [byte_of_Z value]
  end.

Definition encodeInt (value : Z) (length : Z) : bytes :=
  encodeInt_nat value (Z.to_nat length).

(** ** Exceptions

    wamd/errors.py is not among the sources; the constructors below are
    the classes protocol.py raises or tests with [isinstance], carrying
    the arguments protocol.py passes or reads.  [ConnectionClosedError]
    keeps its keyword arguments as they are passed: [None] is an argument
    left to the constructor's default. *)

Inductive Exception :=
| AuthenticationFailedError (msg : string)
| NodeStreamError (code : string)
| ConnectionClosedError (isLoggedOut isAuthDone : option bool) (reason : string)
| StreamEndError
| AttributeError (msg : string)
| NameError (name : string)
| KeyError (key : string)
| TypeError (msg : string)
| IndexError (msg : string)
| AlreadyCalledError
| ExternalError (cls msg : string).

(** A [twisted.python.failure.Failure] is its wrapped exception
    ([failure.value]). *)
Abbreviation Failure := Exception (only parsing).

Inductive Res (A : Type) :=
| Ok (a : A)
| Raise (e : Exception).
Arguments Ok {A} a.
Arguments Raise {A} e.

(** ** Nodes (wamd/coder.py, as protocol.py builds and reads them) *)

Inductive Node :=
| mkNode (tag : string) (attributes : gmap string string) (content : Content)
with Content :=
| CNone
| CBytes (b : bytes)
| CNode (n : Node)
| CList (l : list Node).

Definition tag (n : Node) : string := let 'mkNode t _ _ := n in t.
Definition attributes (n : Node) : gmap string string :=
  let 'mkNode _ a _ := n in a.

(** Modelled from the spec: [Node.__getitem__] of wamd/coder.py, which is
    not among the sources: [node['id']] reads the attribute mapping
    ("a tag, an attribute mapping (string→string)"); a [dict] raises
    [KeyError] on an absent key. *)
Definition Node_getitem (n : Node) (k : string) : Res string :=
  match attributes n !! k with
  | Some v => Ok v
  | None => Raise (KeyError k)
  end.

(** ** Protocol buffers (wamd/proto/WAMessage_pb2.py), fields as set or
    read by protocol.py; an unset optional field is [None]. *)

Record ServerHello := {
  sh_ephemeral : bytes; sh_static : bytes; sh_payload : bytes }.

Record ClientHello := { ch_ephemeral : bytes }.

Record ClientFinish := { cf_static : bytes; cf_payload : bytes }.

Record HandshakeMessage := {
  clientHello : option ClientHello;
  serverHello : option ServerHello;
  clientFinish : option ClientFinish }.

Record NoiseCertificate := { cert_details : bytes; cert_signature : bytes }.

Record Details := {
  issuer : string; key : bytes; expires : option Z }.

Record AppVersion := {
  primary : option Z; secondary : option Z; tertiary : option Z }.

Record CompanionProps := {
  cp_os : string;
  cp_version : AppVersion;
  cp_platformType : Z;
  cp_requireFullSync : bool }.

Record CompanionRegData := {
  buildHash : bytes;
  companionProps : bytes;
  eRegid : bytes;
  eKeytype : bytes;
  eIdent : bytes;
  eSkeyId : bytes;
  eSkeyVal : bytes;
  eSkeySig : bytes }.

Record UserAgent := {
  ua_appVersion : AppVersion;
  ua_platform : Z;
  ua_releaseChannel : Z;
  ua_mcc : string;
  ua_mnc : string;
  ua_osVersion : string;
  ua_manufacturer : string;
  ua_device : string;
  ua_osBuildNumber : string;
  ua_localeLanguageIso6391 : string;
  ua_localeCountryIso31661Alpha2 : string }.

Record WebInfo := { webSubPlatform : Z }.

Record ClientPayload := {
  connectReason : Z;
  connectType : Z;
  passive : bool;
  regData : option CompanionRegData;
  username : option Z;
  device : option Z;
  userAgent : UserAgent;
  webInfo : WebInfo }.

(** ** AuthState (wamd/common.py), the attributes protocol.py reads *)

Record KeyPair := { publicKey : bytes; privateKey : bytes }.

Record SignedPreKey := {
  spk_id : Z; spk_keyPair : KeyPair; spk_signature : bytes }.

Record Me := { jid : string }.

Record AuthState := {
  noiseKey : KeyPair;
  signedIdentityKey : KeyPair;
  signedPrekey : SignedPreKey;
  registrationId : Z;
  me : option Me }.

(** ** External collaborators

    Everything protocol.py calls that lives outside the two source
    files: the constants, the Noise handshake and cipher states
    (dissononce, consonance), the signature check (axolotl), the protobuf
    and binary-XML codecs, and a few helpers.  A call that can raise
    returns a [Res]; an object that the call mutates is returned with
    the result. *)

Class Collaborators := {
  (* dissononce *)
  HandshakeState : Type;
  CipherState : Type;
  HandshakeState_initialize : bytes -> KeyPair -> HandshakeState;
  read_message : HandshakeState -> bytes -> Res bytes * HandshakeState;
  write_message :
    HandshakeState -> bytes ->
    Res (bytes * option (CipherState * CipherState)) * HandshakeState;
  rs_data : HandshakeState -> Res bytes;
  encrypt_with_ad : CipherState -> bytes -> bytes -> Res bytes * CipherState;
  decrypt_with_ad : CipherState -> bytes -> bytes -> Res bytes * CipherState;
  (* wamd/constants.py *)
  PROLOGUE : bytes;
  CERTIFICATE_ISSUER : string;
  WHATSAPP_LONG_TERM : bytes;
  FLAG_COMPRESSED : Z;
  BUILD_HASH_decoded : bytes;
  DEFAULT_BROWSER_KIND : string * string * string;
  WHATSAPP_WEB_VERSION : Z * Z * Z;
  (* axolotl *)
  verifySignature : bytes -> bytes -> bytes -> Res bool;
  (* protobuf *)
  HandshakeMessage_ParseFromString : bytes -> Res HandshakeMessage;
  HandshakeMessage_SerializeToString : HandshakeMessage -> bytes;
  NoiseCertificate_ParseFromString : bytes -> Res NoiseCertificate;
  Details_ParseFromString : bytes -> Res Details;
  ClientPayload_SerializeToString : ClientPayload -> bytes;
  CompanionProps_SerializeToString : CompanionProps -> bytes;
  (* wamd/coder.py, wamd/utils.py, wamd/common.py *)
  WABinaryWriter_getData : Node -> Res bytes;
  WABinaryReader_readNode : bytes -> Res Node;
  splitJid : string -> Res (string * string * string * string);
  inflate : bytes -> Res bytes;
  generateRandomNumber : nat -> Z -> string;
  AuthState_new : AuthState;
  (* Python builtins: int(str), str(failure) *)
  int_of_str : string -> Res Z;
  Failure_str : Failure -> string }.

(** [generateRandomNumber k n] is what the [k]-th call of
    [generateRandomNumber(n)] on this connection returns, already
    formatted by ["%s"]. *)

Section Protocol.

Context `{C : Collaborators}.

(** ** State *)

(** A Deferred is a reference (an index) into the store of Deferreds;
    what its holders observe is its entry there. *)

Inductive Value :=
| VConnection
| VServerHello (sh : ServerHello)
| VNode (n : Node).

Inductive DeferredState :=
| Pending
| Called (v : Value)
| Errbacked (f : Failure).

Inductive WireOp :=
| SendMessage (payload : bytes) (isBinary : bool)
| SendClose (code : Z).

Inductive Event :=
| EvOpen
| EvClose (reason : Failure).

Record LoopingCall := { running : bool; interval : Z }.

(** The attributes of a [MultiDeviceWhatsAppClientProtocol]. *)
Record Protocol := {
  authState : option AuthState;
  _pendingRequest : gmap string nat;
  _noiseHandshakeState : option HandshakeState;
  _recvCipher : option CipherState;
  _sendCipher : option CipherState;
  _serverHelloDeferred : option nat;
  _failure : option Failure;
  _keepAliveLoop : option LoopingCall;
  _messageTagCounter : Z;
  _messageTagPrefix : option string }.

(** The attributes of a [MultiDeviceWhatsAppClientFactory]. *)
Record Factory := {
  _authState : option AuthState;
  readyDeferred : option nat;
  authDeferred : option nat }.

(** What the connection shares with its environment: the Deferreds
    handed out, the websocket ([sendMessage], [sendClose] in call
    order), the events fired, the nodes handed to [messageNodeReceived]
    (its "Node Received" log line), and how many random numbers were
    drawn; [now] is what [int(time.time())] returns. *)
Record World := {
  deferreds : list DeferredState;
  wire : list WireOp;
  events : list Event;
  received : list Node;
  draws : nat;
  now : Z }.

Record State := { conn : Protocol; factory : Factory; world : World }.

(** *** Attribute assignment *)

Definition set_conn (f : Protocol -> Protocol) (s : State) : State :=
  {| conn := f (conn s); factory := factory s; world := world s |}.
Definition set_factory (f : Factory -> Factory) (s : State) : State :=
  {| conn := conn s; factory := f (factory s); world := world s |}.
Definition set_world (f : World -> World) (s : State) : State :=
  {| conn := conn s; factory := factory s; world := f (world s) |}.

Definition with_authState v (p : Protocol) : Protocol :=
  {| authState := v; _pendingRequest := _pendingRequest p;
     _noiseHandshakeState := _noiseHandshakeState p;
     _recvCipher := _recvCipher p; _sendCipher := _sendCipher p;
     _serverHelloDeferred := _serverHelloDeferred p; _failure := _failure p;
     _keepAliveLoop := _keepAliveLoop p;
     _messageTagCounter := _messageTagCounter p;
     _messageTagPrefix := _messageTagPrefix p |}.
Definition with_pendingRequest v (p : Protocol) : Protocol :=
  {| authState := authState p; _pendingRequest := v;
     _noiseHandshakeState := _noiseHandshakeState p;
     _recvCipher := _recvCipher p; _sendCipher := _sendCipher p;
     _serverHelloDeferred := _serverHelloDeferred p; _failure := _failure p;
     _keepAliveLoop := _keepAliveLoop p;
     _messageTagCounter := _messageTagCounter p;
     _messageTagPrefix := _messageTagPrefix p |}.
Definition with_noiseHandshakeState v (p : Protocol) : Protocol :=
  {| authState := authState p; _pendingRequest := _pendingRequest p;
     _noiseHandshakeState := v;
     _recvCipher := _recvCipher p; _sendCipher := _sendCipher p;
     _serverHelloDeferred := _serverHelloDeferred p; _failure := _failure p;
     _keepAliveLoop := _keepAliveLoop p;
     _messageTagCounter := _messageTagCounter p;
     _messageTagPrefix := _messageTagPrefix p |}.
Definition with_recvCipher v (p : Protocol) : Protocol :=
  {| authState := authState p; _pendingRequest := _pendingRequest p;
     _noiseHandshakeState := _noiseHandshakeState p;
     _recvCipher := v; _sendCipher := _sendCipher p;
     _serverHelloDeferred := _serverHelloDeferred p; _failure := _failure p;
     _keepAliveLoop := _keepAliveLoop p;
     _messageTagCounter := _messageTagCounter p;
     _messageTagPrefix := _messageTagPrefix p |}.
Definition with_sendCipher v (p : Protocol) : Protocol :=
  {| authState := authState p; _pendingRequest := _pendingRequest p;
     _noiseHandshakeState := _noiseHandshakeState p;
     _recvCipher := _recvCipher p; _sendCipher := v;
     _serverHelloDeferred := _serverHelloDeferred p; _failure := _failure p;
     _keepAliveLoop := _keepAliveLoop p;
     _messageTagCounter := _messageTagCounter p;
     _messageTagPrefix := _messageTagPrefix p |}.
Definition with_serverHelloDeferred v (p : Protocol) : Protocol :=
  {| authState := authState p; _pendingRequest := _pendingRequest p;
     _noiseHandshakeState := _noiseHandshakeState p;
     _recvCipher := _recvCipher p; _sendCipher := _sendCipher p;
     _serverHelloDeferred := v; _failure := _failure p;
     _keepAliveLoop := _keepAliveLoop p;
     _messageTagCounter := _messageTagCounter p;
     _messageTagPrefix := _messageTagPrefix p |}.
Definition with_failure v (p : Protocol) : Protocol :=
  {| authState := authState p; _pendingRequest := _pendingRequest p;
     _noiseHandshakeState := _noiseHandshakeState p;
     _recvCipher := _recvCipher p; _sendCipher := _sendCipher p;
     _serverHelloDeferred := _serverHelloDeferred p; _failure := v;
     _keepAliveLoop := _keepAliveLoop p;
     _messageTagCounter := _messageTagCounter p;
     _messageTagPrefix := _messageTagPrefix p |}.
Definition with_keepAliveLoop v (p : Protocol) : Protocol :=
  {| authState := authState p; _pendingRequest := _pendingRequest p;
     _noiseHandshakeState := _noiseHandshakeState p;
     _recvCipher := _recvCipher p; _sendCipher := _sendCipher p;
     _serverHelloDeferred := _serverHelloDeferred p; _failure := _failure p;
     _keepAliveLoop := v;
     _messageTagCounter := _messageTagCounter p;
     _messageTagPrefix := _messageTagPrefix p |}.
Definition with_messageTagCounter v (p : Protocol) : Protocol :=
  {| authState := authState p; _pendingRequest := _pendingRequest p;
     _noiseHandshakeState := _noiseHandshakeState p;
     _recvCipher := _recvCipher p; _sendCipher := _sendCipher p;
     _serverHelloDeferred := _serverHelloDeferred p; _failure := _failure p;
     _keepAliveLoop := _keepAliveLoop p;
     _messageTagCounter := v;
     _messageTagPrefix := _messageTagPrefix p |}.
Definition with_messageTagPrefix v (p : Protocol) : Protocol :=
  {| authState := authState p; _pendingRequest := _pendingRequest p;
     _noiseHandshakeState := _noiseHandshakeState p;
     _recvCipher := _recvCipher p; _sendCipher := _sendCipher p;
     _serverHelloDeferred := _serverHelloDeferred p; _failure := _failure p;
     _keepAliveLoop := _keepAliveLoop p;
     _messageTagCounter := _messageTagCounter p;
     _messageTagPrefix := v |}.

Definition with_factory_authState v (f : Factory) : Factory :=
  {| _authState := v; readyDeferred := readyDeferred f;
     authDeferred := authDeferred f |}.
Definition with_readyDeferred v (f : Factory) : Factory :=
  {| _authState := _authState f; readyDeferred := v;
     authDeferred := authDeferred f |}.
Definition with_authDeferred v (f : Factory) : Factory :=
  {| _authState := _authState f; readyDeferred := readyDeferred f;
     authDeferred := v |}.

Definition with_deferreds v (w : World) : World :=
  {| deferreds := v; wire := wire w; events := events w;
     received := received w; draws := draws w; now := now w |}.
Definition with_wire v (w : World) : World :=
  {| deferreds := deferreds w; wire := v; events := events w;
     received := received w; draws := draws w; now := now w |}.
Definition with_events v (w : World) : World :=
  {| deferreds := deferreds w; wire := wire w; events := v;
     received := received w; draws := draws w; now := now w |}.
Definition with_received v (w : World) : World :=
  {| deferreds := deferreds w; wire := wire w; events := events w;
     received := v; draws := draws w; now := now w |}.
Definition with_draws v (w : World) : World :=
  {| deferreds := deferreds w; wire := wire w; events := events w;
     received := received w; draws := v; now := now w |}.

(** ** The monad of methods: state, and an exception or a value *)

Definition M (A : Type) : Type := State -> Res A * State.

Definition ret {A} (a : A) : M A := fun s => (Ok a, s).

Definition bind {A B} (m : M A) (k : A -> M B) : M B :=
  fun s => match m s with
           | (Ok a, s') => k a s'
           | (Raise e, s') => (Raise e, s')
           end.

Definition raise {A} (e : Exception) : M A := fun s => (Raise e, s).

(** [try: m except: h] with a bare [except]. *)
Definition try_except {A} (m : M A) (h : Failure -> M A) : M A :=
  fun s => match m s with
           | (Ok a, s') => (Ok a, s')
           | (Raise e, s') => h e s'
           end.

Definition get : M State := fun s => (Ok s, s).
Definition modify (f : State -> State) : M unit := fun s => (Ok tt, f s).
Definition lift {A} (r : Res A) : M A := fun s => (r, s).

End Protocol.

Arguments M {C} A.

Notation "x <- m ;; k" := (bind m (fun x => k))
  (at level 100, m at next level, right associativity).
Notation "m ;; k" := (bind m (fun _ => k))
  (at level 100, right associativity).

(** ** Node handlers (wamd/handlers)

    Only [FailureHandler] is among the sources.  Any other handler is a
    method body of its own: it receives the node and may do to the
    connection whatever a method can.  The registry [createNodeHander]
    (wamd/handlers/__init__.py) is a collaborator: it returns a handler,
    a false value ([None]), or raises. *)

Inductive NodeHandler `{C : Collaborators} :=
| FailureHandler
| OtherHandler (handleNode : Node -> M unit).

Class Handlers `{C : Collaborators} := {
  createNodeHander : string -> Res (option NodeHandler) }.

Section Methods.

Context `{C : Collaborators} `{H : !Handlers}.

(** *** Twisted and autobahn primitives *)

(** [Deferred()] *)
Definition Deferred_new : M nat := fun s =>
  let d := length (deferreds (world s)) in
  (Ok d, set_world (with_deferreds (deferreds (world s) ++ [Pending])) s).

(** [d.callback(v)] and [d.errback(f)]: a Deferred fires once. *)
Definition Deferred_fire (d : nat) (r : DeferredState) : M unit := fun s =>
  match deferreds (world s) !! d with
  | Some Pending =>
      (Ok tt, set_world (with_deferreds (<[d := r]> (deferreds (world s)))) s)
  | _ => (Raise AlreadyCalledError, s)
  end.

Definition callback (d : nat) (v : Value) : M unit := Deferred_fire d (Called v).
Definition errback (d : nat) (f : Failure) : M unit := Deferred_fire d (Errbacked f).

Definition sendMessage (payload : bytes) (isBinary : bool) : M unit :=
  modify (set_world (fun w => with_wire (wire w ++ [SendMessage payload isBinary]) w)).

Definition sendClose (code : Z) : M unit :=
  modify (set_world (fun w => with_wire (wire w ++ [SendClose code]) w)).

(** [int(time.time())] *)
Definition time_time : M Z := fun s => (Ok (now (world s)), s).

(** *** MultiDeviceWhatsAppClientFactory *)

Definition _onOpen : M unit :=
  s <- get ;;
  match readyDeferred (factory s) with
  | Some d =>
      modify (set_factory (with_readyDeferred None)) ;;
      callback d VConnection
  | None => ret tt
  end.

Definition _onClose (reason : option Failure) : M unit :=
  s <- get ;;
  match readyDeferred (factory s) with
  | Some d =>
      modify (set_factory (with_readyDeferred None)) ;;
      let reason :=
        match reason with
        | None => ConnectionClosedError None None "Websocket Handshake Failed"
        | Some r => r
        end in
      errback d reason
  | None => ret tt
  end.

Definition authFailure (failure : Failure) : M unit :=
  s <- get ;;
  match authDeferred (factory s) with
  | Some d =>
      modify (set_factory (with_authDeferred None)) ;;
      errback d failure
  | None => ret tt
  end.

Definition authSuccess : M unit :=
  s <- get ;;
  match authDeferred (factory s) with
  | Some d =>
      modify (set_factory (with_authDeferred None)) ;;
      callback d VConnection
  | None => ret tt
  end.

(** [self.fire(event, ...)]: the event reaches its listeners; the two
    listeners [buildProtocol] registers are the factory's [_onOpen] and
    [_onClose].  autobahn runs a listener through [txaio.as_future], so
    what a listener raises does not reach the caller of [fire]. *)
Definition fire (e : Event) : M unit :=
  modify (set_world (fun w => with_events (events w ++ [e]) w)) ;;
  try_except
    match e with
    | EvOpen => _onOpen
    | EvClose reason => _onClose (Some reason)
    end
    (fun _ => ret tt).

(** *** MultiDeviceWhatsAppClientProtocol *)

Definition _authDone : M bool :=
  s <- get ;;
  ret match authDeferred (factory s) with None => true | Some _ => false end.

Definition _handleFailure (failure : Failure) (disconnect : bool) : M unit :=
  modify (set_conn (with_failure (Some failure))) ;;
  done <- _authDone ;;
  (if negb done then
     modify (set_conn (with_sendCipher None)) ;;
     modify (set_conn (with_recvCipher None))
   else ret tt) ;;
  if disconnect then sendClose 1000 else ret tt.

(** The [if]/[elif] chain of [onClose] that chooses [excReason]
    (lines 119-129). *)
Definition excReason (failure : option Failure) : Failure :=
  match failure with
  | None => ConnectionClosedError None None "Connection Closed Cleanly"
  | Some (NodeStreamError code) =>
      if String.eqb code "401"
      then ConnectionClosedError (Some true) None "Device Logged Out"
      else ConnectionClosedError None None "Unhandled Stream Error"
  | Some (AuthenticationFailedError _) =>
      ConnectionClosedError None (Some false) "Authentication Failed"
  | Some f =>
      ConnectionClosedError None None
        ("Unknown Failure: " +:+ String (ascii_of_nat 10) (Failure_str f))
  end.

Definition onClose : M unit :=
  s <- get ;;
  match _keepAliveLoop (conn s) with
  | Some l =>
      if running l then modify (set_conn (with_keepAliveLoop None))
      else ret tt
  | None => ret tt
  end ;;
  s <- get ;;
  failure <-
    match _failure (conn s) with
    | Some f => modify (set_conn (with_failure None)) ;; ret (Some f)
    | None => ret None
    end ;;
  s <- get ;;
  match failure, authDeferred (factory s) with
  | Some f, Some _ => authFailure f
  | _, _ => fire (EvClose (excReason failure))
  end.

(** [FailureHandler.handleNode] (handlers/failure.py): [attrs] is bound
    nowhere, so evaluating the argument of [AuthenticationFailedError]
    raises [NameError] before [_handleFailure] is called. *)
Definition FailureHandler_handleNode (node : Node) : M unit :=
  done <- _authDone ;;
  if negb done then raise (NameError "attrs") else ret tt.

Definition handleNode (h : NodeHandler) (node : Node) : M unit :=
  match h with
  | FailureHandler => FailureHandler_handleNode node
  | OtherHandler f => f node
  end.

Definition messageNodeReceived (node : Node) : M unit :=
  modify (set_world (fun w => with_received (received w ++ [node]) w)) ;;
  nodeHandler <-
    try_except (lift (createNodeHander (tag node)))
               (fun f => _handleFailure f false ;; ret None) ;;
  match nodeHandler with
  | None => ret tt
  | Some h =>
      try_except (handleNode h node) (fun f => _handleFailure f false)
  end.

Definition sendMessageNode (node : Node) : M unit :=
  data <- lift (WABinaryWriter_getData node) ;;
  let encoded := x00 :: data in
  s <- get ;;
  match _sendCipher (conn s) with
  | None =>
      raise (AttributeError
               "'NoneType' object has no attribute 'encrypt_with_ad'")
  | Some c =>
      let '(r, c') := encrypt_with_ad c [] encoded in
      modify (set_conn (with_sendCipher (Some c'))) ;;
      encrypted <- lift r ;;
      let payload := (encodeInt (Z.of_nat (length encrypted)) 3 ++ encrypted) in
      sendMessage payload true
  end.

Definition request (node : Node) : M nat :=
  deferred <- Deferred_new ;;
  id <- lift (Node_getitem node "id") ;;
  modify (set_conn (fun p =>
    with_pendingRequest (<[id := deferred]> (_pendingRequest p)) p)) ;;
  sendMessageNode node ;;
  ret deferred.

Definition getAuthState : M AuthState :=
  s <- get ;;
  match authState (conn s) with
  | Some a => ret a
  | None => raise (AttributeError "'NoneType' object has no attribute 'has'")
  end.

Definition _buildClientPayloadHandshake : M ClientPayload :=
  let browser := DEFAULT_BROWSER_KIND in
  let version := WHATSAPP_WEB_VERSION in
  a <- getAuthState ;;
  mode <-
    match me a with
    | None =>
        let appVersion :=
          {| primary := Some 10; secondary := None; tertiary := None |} in
        let companionProps :=
          {| cp_os := browser.1.1; cp_version := appVersion;
             cp_platformType := 1; cp_requireFullSync := false |} in
        let companionRegData :=
          {| buildHash := BUILD_HASH_decoded;
             companionProps := CompanionProps_SerializeToString companionProps;
             eRegid := encodeInt (registrationId a) 4;
             eKeytype := encodeInt 5 1;
             eIdent := publicKey (signedIdentityKey a);
             eSkeyId := encodeInt (spk_id (signedPrekey a)) 3;
             eSkeyVal := publicKey (spk_keyPair (signedPrekey a));
             eSkeySig := spk_signature (signedPrekey a) |} in
        ret (false, Some companionRegData, None, None)
    | Some m =>
        parts <- lift (splitJid (jid m)) ;;
        let '(user, agent, device, server) := parts in
        username <- lift (int_of_str user) ;;
        device <- lift (int_of_str device) ;;
        ret (true, None, Some username, Some device)
    end ;;
  let '(passive, regData, username, device) := mode in
  let userAgentAppVersion :=
    {| primary := Some version.1.1; secondary := Some version.1.2;
       tertiary := Some version.2 |} in
  let userAgent :=
    {| ua_appVersion := userAgentAppVersion;
       ua_platform := 14;
       ua_releaseChannel := 0;
       ua_mcc := "000";
       ua_mnc := "000";
       ua_osVersion := browser.2;
       ua_manufacturer := "";
       ua_device := browser.1.2;
       ua_osBuildNumber := "0.1";
       ua_localeLanguageIso6391 := "en";
       ua_localeCountryIso31661Alpha2 := "en" |} in
  ret {| connectReason := 1; connectType := 1;
         passive := passive; regData := regData;
         username := username; device := device;
         userAgent := userAgent;
         webInfo := {| webSubPlatform := 0 |} |}.

Definition _startKeepAliveLoop : M unit :=
  modify (set_conn (with_keepAliveLoop
                      (Some {| running := true; interval := 20 |}))).

Definition getHandshakeState (method : string) : M HandshakeState :=
  s <- get ;;
  match _noiseHandshakeState (conn s) with
  | Some hs => ret hs
  | None =>
      raise (AttributeError
               ("'NoneType' object has no attribute '" +:+ method +:+ "'"))
  end.

Definition _sendClientHello : M unit :=
  s <- get ;;
  let a := match authState (conn s) with
           | None => AuthState_new
           | Some a => a
           end in
  modify (set_conn (with_authState (Some a))) ;;
  let hs := HandshakeState_initialize PROLOGUE (noiseKey a) in
  modify (set_conn (with_noiseHandshakeState (Some hs))) ;;
  let '(r, hs') := write_message hs [] in
  modify (set_conn (with_noiseHandshakeState (Some hs'))) ;;
  out <- lift r ;;
  let ephemeralPublic := out.1 in
  let handshakeMsg :=
    {| clientHello := Some {| ch_ephemeral := ephemeralPublic |};
       serverHello := None; clientFinish := None |} in
  let clientHelloMsg := HandshakeMessage_SerializeToString handshakeMsg in
  let clientHelloPayload :=
    (PROLOGUE ++ encodeInt (Z.of_nat (length clientHelloMsg)) 3
              ++ clientHelloMsg) in
  sendMessage clientHelloPayload true.

Definition _waitServerHello : M nat :=
  _sendClientHello ;;
  d <- Deferred_new ;;
  modify (set_conn (with_serverHelloDeferred (Some d))) ;;
  ret d.

(** [_doHandshake] is a generator: it runs [_waitServerHello] and is
    suspended on the Deferred that returns.  [onMessage] fires that
    Deferred with the ServerHello, which resumes the generator inside
    that call: lines 200-229 verify the certificate, lines 231-257 send
    ClientFinish. *)
Definition _doHandshake_verify (serverHello : ServerHello) : M unit :=
  hs <- getHandshakeState "read_message" ;;
  let '(r, hs') :=
    read_message hs (sh_ephemeral serverHello ++ sh_static serverHello
                       ++ sh_payload serverHello) in
  modify (set_conn (with_noiseHandshakeState (Some hs'))) ;;
  messageBuffer <- lift r ;;
  cert <- lift (NoiseCertificate_ParseFromString messageBuffer) ;;
  certDetails <- lift (Details_ParseFromString (cert_details cert)) ;;
  if negb (String.eqb (issuer certDetails) CERTIFICATE_ISSUER) then
    raise (AuthenticationFailedError
             ("Noise certificate issued by unknown source: "
                +:+ issuer certDetails))
  else
  valid <- lift (verifySignature WHATSAPP_LONG_TERM (cert_details cert)
                                 (cert_signature cert)) ;;
  if negb valid then
    raise (AuthenticationFailedError "Invalid signature on noise ceritificate")
  else
  rs <- lift (rs_data hs') ;;
  if negb (bool_decide (key certDetails = rs)) then
    raise (AuthenticationFailedError
             "Noise certificate key does not match proposed server static key")
  else
  match expires certDetails with
  | Some e =>
      t <- time_time ;;
      if (e <? t)%Z then raise (AuthenticationFailedError "Noise certificate expired")
      else ret tt
  | None => ret tt
  end.

Definition _doHandshake_finish : M unit :=
  clientPayload <- _buildClientPayloadHandshake ;;
  hs <- getHandshakeState "write_message" ;;
  let '(r, hs') :=
    write_message hs (ClientPayload_SerializeToString clientPayload) in
  modify (set_conn (with_noiseHandshakeState (Some hs'))) ;;
  out <- lift r ;;
  let '(messageBuffer, cipherPair) := out in
  match cipherPair with
  | None => raise (TypeError "cannot unpack non-iterable NoneType object")
  | Some (sendCipher, recvCipher) =>
      modify (set_conn (with_sendCipher (Some sendCipher))) ;;
      modify (set_conn (with_recvCipher (Some recvCipher))) ;;
      let handshakeMsg :=
        {| clientHello := None; serverHello := None;
           clientFinish :=
             Some {| cf_static := slice 0 48 messageBuffer;
                     cf_payload := slice_from 48 messageBuffer |} |} in
      let clientFinishMessage := HandshakeMessage_SerializeToString handshakeMsg in
      let clientFinishPayload :=
        (encodeInt (Z.of_nat (length clientFinishMessage)) 3
           ++ clientFinishMessage) in
      sendMessage clientFinishPayload true ;;
      _startKeepAliveLoop
  end.

Definition _doHandshake_resume (serverHello : ServerHello) : M unit :=
  _doHandshake_verify serverHello ;;
  _doHandshake_finish.

(** [self._doHandshake().addErrback(self._handleFailure)]: whatever the
    generator raises, before or after its suspension, reaches
    [_handleFailure] with [disconnect] left at its default. *)
Definition _doHandshake_errback (m : M unit) : M unit :=
  try_except m (fun f => _handleFailure f false).

Definition authenticate : M (option nat) :=
  _doHandshake_errback (_waitServerHello ;; ret tt) ;;
  s <- get ;;
  ret (authDeferred (factory s)).

Definition onOpen : M unit :=
  s <- get ;;
  match authState (conn s) with
  | None => fire EvOpen
  | Some _ => _doHandshake_errback (_waitServerHello ;; ret tt)
  end.

(** The [try] block of the loop body (lines 165-169): the flag byte,
    the optional inflation and the node reader; [except StreamEndError:
    pass] leaves no node, anything else propagates. *)
Definition readFrame (decrypted : bytes) : Res (option Node) :=
  let block :=
    match decrypted with
    | [] => Raise (IndexError "index out of range")
    | flag :: rest =>
        match (if (Z.land (byte_val flag) FLAG_COMPRESSED =? 0)%Z
               then Ok rest else inflate rest) with
        | Ok decrypted =>
            match WABinaryReader_readNode decrypted with
            | Ok node => Ok (Some node)
            | Raise e => Raise e
            end
        | Raise e => Raise e
        end
    end in
  match block with
  | Raise StreamEndError => Ok None
  | r => r
  end.

(** The body of the [while message:] loop after the three slices
    (lines 154-173). *)
Definition onMessage_frame (encrypted : bytes) : M unit :=
  s <- get ;;
  match _recvCipher (conn s) with
  | None => ret tt
  | Some c =>
      let '(r, c') := decrypt_with_ad c [] encrypted in
      modify (set_conn (with_recvCipher (Some c'))) ;;
      match r with
      | Raise e => _handleFailure e true
      | Ok decrypted =>
          node <- lift (readFrame decrypted) ;;
          match node with
          | Some node => messageNodeReceived node
          | None => ret tt
          end
      end
  end.

(** The [while message:] loop.  Every round drops at least the three
    bytes of the length, so [length message] rounds are enough; [fuel]
    counts them. *)
Fixpoint onMessage_loop (fuel : nat) (message : bytes) : M unit :=
  match fuel with
  | O => ret tt
  | S fuel =>
      match message with
      | [] => ret tt
      | _ =>
          let messageLength := decodeInt (slice 0 3 message) 3 in
          let encrypted := slice 3 (messageLength + 3) message in
          let message := slice_from (messageLength + 3) message in
          onMessage_frame encrypted ;;
          onMessage_loop fuel message
      end
  end.

Definition onMessage (message : bytes) (isBinary : bool) : M unit :=
  s <- get ;;
  match _serverHelloDeferred (conn s) with
  | Some d =>
      handshakeMsg <-
        lift (HandshakeMessage_ParseFromString (slice_from 3 message)) ;;
      let serverHello :=
        match serverHello handshakeMsg with
        | Some sh => sh
        | None => {| sh_ephemeral := []; sh_static := []; sh_payload := [] |}
        end in
      modify (set_conn (with_serverHelloDeferred None)) ;;
      callback d (VServerHello serverHello) ;;
      _doHandshake_errback (_doHandshake_resume serverHello)
  | None => onMessage_loop (length message) message
  end.

Definition _restart : M unit :=
  s <- get ;;
  modify (set_factory (with_factory_authState (authState (conn s)))) ;;
  modify (set_conn (with_authState None)) ;;
  modify (set_conn (with_sendCipher None)) ;;
  modify (set_conn (with_recvCipher None)).

Definition random (n : Z) : M string := fun s =>
  (Ok (generateRandomNumber (draws (world s)) n),
   set_world (fun w => with_draws (S (draws w)) w) s).

(** Python's [str] of an [int]. *)
Definition str (z : Z) : string := pretty z.

Definition _generateMessageId : M string :=
  s <- get ;;
  match _messageTagPrefix (conn s) with
  | None =>
      _1 <- random 5 ;;
      _2 <- random 5 ;;
      modify (set_conn (with_messageTagPrefix (Some (_1 +:+ "." +:+ _2))))
  | Some _ => ret tt
  end ;;
  s <- get ;;
  let suffix := str (_messageTagCounter (conn s) + 1) in
  modify (set_conn (with_messageTagCounter (_messageTagCounter (conn s) + 1))) ;;
  s <- get ;;
  let messageTag := default "None" (_messageTagPrefix (conn s)) +:+ "-" +:+ suffix in
  (if (_messageTagCounter (conn s) =? 99)%Z then
     modify (set_conn (with_messageTagPrefix None)) ;;
     modify (set_conn (with_messageTagCounter 0))
   else ret tt) ;;
  ret messageTag.

(** [n] successive calls of [_generateMessageId], the ids in call
    order. *)
Fixpoint generateMessageIds (n : nat) : M (list string) :=
  match n with
  | O => ret []
  | S n =>
      messageTag <- _generateMessageId ;;
      rest <- generateMessageIds n ;;
      ret (messageTag :: rest)
  end.

(** The prefix the next call of [_generateMessageId] uses: the stored
    one, or the one it draws. *)
Definition prefix_in_use (s : State) : string :=
  match _messageTagPrefix (conn s) with
  | Some p => p
  | None =>
      generateRandomNumber (draws (world s)) 5 +:+ "." +:+
      generateRandomNumber (S (draws (world s))) 5
  end.

Definition messageTag_of (prefix : string) (suffix : Z) : string :=
  prefix +:+ "-" +:+ str suffix.

(** *** Vocabulary of the properties *)

(** The reference [factory.authDeferred] is cleared by whoever fires the
    future, so a reference still there is to an unfired Deferred. *)
Definition auth_pending (s : State) (d : nat) : Prop :=
  authDeferred (factory s) = Some d /\ deferreds (world s) !! d = Some Pending.

(** The big-endian value of a byte string. *)
Definition big_endian (data : bytes) : Z :=
  fold_left (fun acc b => acc * 256 + byte_val b) data 0.

(** The counter stays below 99: it starts at 0 and is reset when it
    reaches 99. *)
Definition tag_wf (s : State) : Prop :=
  0 <= _messageTagCounter (conn s) <= 98.

(** What the handshake driver does to the environment: it sends
    messages, and nothing else; it closes nothing, fires no event and
    no Deferred, and leaves the factory alone. *)
Definition driver_frame (s s' : State) : Prop :=
  factory s' = factory s /\
  events (world s') = events (world s) /\
  received (world s') = received (world s) /\
  (forall d, (d < length (deferreds (world s)))%nat ->
             deferreds (world s') !! d = deferreds (world s) !! d) /\
  exists sent,
    wire (world s') = wire (world s) ++ sent /\
    Forall (fun op => exists payload isBinary, op = SendMessage payload isBinary)
           sent.

(** [MultiDeviceWhatsAppClientFactory.__init__] followed by
    [buildProtocol]: two fresh Deferreds, a protocol with the class
    defaults, and the factory's saved [_authState], if any, moved into
    the protocol. *)
Definition buildProtocol (saved : option AuthState) (t : Z) : State :=
  {| conn :=
       {| authState := saved; _pendingRequest := ∅;
          _noiseHandshakeState := None;
          _recvCipher := None; _sendCipher := None;
          _serverHelloDeferred := None; _failure := None;
          _keepAliveLoop := None;
          _messageTagCounter := 0; _messageTagPrefix := None |};
     factory :=
       {| _authState := None; readyDeferred := Some 0%nat;
          authDeferred := Some 1%nat |};
     world :=
       {| deferreds := [Pending; Pending]; wire := []; events := [];
          received := []; draws := 0; now := t |} |}.

End Methods.

(** ** More of the protocol and of the factory *)

(** The objects [sendReadReceipt] reads (wamd/messages.py, not among
    the sources): all it does with a message is [message[key]]. *)
Class Messages := {
  Message : Type;
  Message_getitem : Message -> string -> Res string }.

Section MoreMethods.

Context `{C : Collaborators} `{H : !Handlers} `{MS : Messages}.

(** One length-prefixed frame, as [sendMessageNode] writes it and the
    loop of [onMessage] reads it. *)
Definition frame (ciphertext : bytes) : bytes :=
  encodeInt (Z.of_nat (length ciphertext)) 3 ++ ciphertext.

(** The loop body on each of a list of ciphertexts, in order; an
    exception ends it. *)
Fixpoint onMessage_frames (ciphertexts : list bytes) : M unit :=
  match ciphertexts with
  | [] => ret tt
  | c :: rest => onMessage_frame c ;; onMessage_frames rest
  end.

(** The function [_startKeepAliveLoop] hands to [LoopingCall]
    (lines 638-646); the errback it adds swallows a failure of the
    returned Deferred and changes nothing here. *)
Definition keepAlive_loop : M nat :=
  id <- _generateMessageId ;;
  request (mkNode "iq"
             (<["id" := id]> (<["to" := "@s.whatsapp.net"]>
                (<["type" := "get"]> (<["xmlns" := "w:p"]> ∅))))
             (CNode (mkNode "ping" ∅ CNone))).

(** The Deferred [succeed(None)] or [fail(Failure())] returns has
    fired already: it is its result. *)
Inductive FiredDeferred :=
| succeed_None
| fail (f : Failure).

Definition sendReadReceipt (message : Message) : M FiredDeferred :=
  try_except
    (to <- lift (Message_getitem message "from") ;;
     id <- lift (Message_getitem message "id") ;;
     t <- time_time ;;
     sendMessageNode
       (mkNode "receipt"
          (<["to" := to]> (<["type" := "read"]>
             (<["id" := id]> (<["t" := str t]> ∅))))
          CNone) ;;
     ret succeed_None)
    (fun f => ret (fail f)).

(** [MultiDeviceWhatsAppClientFactory.clientConnectionFailed] *)
Definition clientConnectionFailed (reason : Failure) : M unit :=
  s <- get ;;
  match readyDeferred (factory s) with
  | Some d =>
      modify (set_factory (with_readyDeferred None)) ;;
      errback d reason
  | None => ret tt
  end.

(** A protocol as [__init__] leaves it. *)
Definition Protocol_init : Protocol :=
  {| authState := None; _pendingRequest := ∅;
     _noiseHandshakeState := None;
     _recvCipher := None; _sendCipher := None;
     _serverHelloDeferred := None; _failure := None;
     _keepAliveLoop := None;
     _messageTagCounter := 0; _messageTagPrefix := None |}.

(** [buildProtocol] on the factory as it is: the new protocol replaces
    the connection, and takes the saved [_authState], if any, out of
    the factory. *)
Definition Factory_buildProtocol : M unit :=
  s <- get ;;
  modify (set_conn (fun _ => Protocol_init)) ;;
  match _authState (factory s) with
  | Some a =>
      modify (set_factory (with_factory_authState None)) ;;
      modify (set_conn (with_authState (Some a)))
  | None => ret tt
  end.

(** [clientConnectionLost]: with a saved [_authState] the connector
    connects again, which makes Twisted call [buildProtocol]; the
    result tells whether it did. *)
Definition clientConnectionLost : M bool :=
  s <- get ;;
  match _authState (factory s) with
  | Some _ => Factory_buildProtocol ;; ret true
  | None => ret false
  end.

(** The factory fires each of its Deferreds once: a reference it still
    holds is to an unfired Deferred, and the two are different
    objects. *)
Definition factory_wf (s : State) : Prop :=
  (forall d, readyDeferred (factory s) = Some d ->
             deferreds (world s) !! d = Some Pending) /\
  (forall d, authDeferred (factory s) = Some d ->
             deferreds (world s) !! d = Some Pending) /\
  (forall d, readyDeferred (factory s) = Some d ->
             authDeferred (factory s) <> Some d).

(** A Deferred that has fired keeps its result. *)
Definition fired_kept (s s' : State) : Prop :=
  forall d r, deferreds (world s) !! d = Some r -> r <> Pending ->
              deferreds (world s') !! d = Some r.

(** The id of the [i]-th call (from 0) of [_generateMessageId] on a
    connection that starts a prefix period with [d] numbers drawn:
    99 ids to a prefix, two draws to a prefix. *)
Definition nth_messageTag (d i : nat) : string :=
  let period := (i / 99)%nat in
  messageTag_of
    (generateRandomNumber (d + 2 * period) 5 +:+ "." +:+
     generateRandomNumber (S (d + 2 * period)) 5)
    (Z.of_nat (i mod 99) + 1).

(** The methods of the factory that fire its Deferreds, and a sequence
    of calls of them. *)
Inductive FactoryCall :=
| call_onOpen
| call_onClose (reason : option Failure)
| call_authFailure (failure : Failure)
| call_authSuccess
| call_clientConnectionFailed (reason : Failure).

Definition Factory_call (c : FactoryCall) : M unit :=
  match c with
  | call_onOpen => _onOpen
  | call_onClose reason => _onClose reason
  | call_authFailure failure => authFailure failure
  | call_authSuccess => authSuccess
  | call_clientConnectionFailed reason => clientConnectionFailed reason
  end.


(** The position [i] in the sequence of ids of a connection that
    started a prefix period with [d] numbers drawn. *)
Definition at_messageTag (d i : nat) (s : State) : Prop :=
  _messageTagCounter (conn s) = Z.of_nat (i mod 99) /\
  if decide (i mod 99 = 0)%nat then
    _messageTagPrefix (conn s) = None /\
    draws (world s) = (d + 2 * (i / 99))%nat
  else
    _messageTagPrefix (conn s)
      = Some (generateRandomNumber (d + 2 * (i / 99)) 5 +:+ "." +:+
              generateRandomNumber (S (d + 2 * (i / 99))) 5) /\
    draws (world s) = (d + 2 * (i / 99) + 2)%nat.

End MoreMethods.

(** ** Sample collaborators

    Stand-ins for the external libraries, small enough to run the
    methods on concrete inputs: a cipher that seals a plaintext by
    putting its nonce in front, a node codec with one byte per node, a
    certificate whose details are its expiry time. *)

Module Sample.

Definition iqA : Node := mkNode "iq" {["id" := "A"]} CNone.
Definition iqB : Node := mkNode "iq" {["id" := "B"]} CNone.
Definition failure401 : Node := mkNode "failure" {["code" := "401"]} CNone.
Definition ping : Node := mkNode "ping" ∅ CNone.

Definition readNode (b : bytes) : Res Node :=
  match b with
  | [] => Raise StreamEndError
  | [x01] => Ok iqA
  | [x02] => Ok iqB
  | [x03] => Ok failure401
  | _ => Ok ping
  end.

Definition getData (n : Node) : Res bytes :=
  if String.eqb (tag n) "failure" then Ok [x03]
  else match attributes n !! "id" with
       | Some "A" => Ok [x01]
       | Some "B" => Ok [x02]
       | _ => Ok [x04]
       end.

Definition seal (nonce : nat) (ad plaintext : bytes) : Res bytes * nat :=
  (Ok (byte_of_Z (Z.of_nat nonce) :: plaintext), S nonce).

Definition open (nonce : nat) (ad ciphertext : bytes) : Res bytes * nat :=
  match ciphertext with
  | b :: plaintext =>
      if (byte_val b =? Z.of_nat nonce)%Z then (Ok plaintext, S nonce)
      else (Raise (ExternalError "InvalidTag" ""), nonce)
  | [] => (Raise (ExternalError "InvalidTag" ""), nonce)
  end.

Definition details (b : bytes) : Res Details :=
  Ok {| issuer := "WhatsAppLongTerm1"; key := [];
        expires := match b with
                   | [] => None
                   | _ => Some (decodeInt b 4)
                   end |}.

Definition to_int (s : string) : Res Z :=
  if String.eqb s "6281234" then Ok 6281234
  else if String.eqb s "7" then Ok 7
  else Raise (ExternalError "ValueError" "invalid literal for int()").

Definition authState0 : AuthState :=
  {| noiseKey := {| publicKey := [x01]; privateKey := [x02] |};
     signedIdentityKey := {| publicKey := [x03]; privateKey := [x04] |};
     signedPrekey :=
       {| spk_id := 1;
          spk_keyPair := {| publicKey := [x05]; privateKey := [x06] |};
          spk_signature := [x07] |};
     registrationId := 4660;
     me := None |}.

Definition authState1 : AuthState :=
  {| noiseKey := noiseKey authState0;
     signedIdentityKey := signedIdentityKey authState0;
     signedPrekey := signedPrekey authState0;
     registrationId := registrationId authState0;
     me := Some {| jid := "6281234:7@s.whatsapp.net" |} |}.

#[export] Instance collaborators : Collaborators := {|
  HandshakeState := nat;
  CipherState := nat;
  HandshakeState_initialize := fun _ _ => 0%nat;
  read_message := fun hs data => (Ok (drop 2 data), S hs);
  write_message := fun hs payload =>
    (Ok (payload, match hs with
                  | O => None
                  | S _ => Some (0%nat, 0%nat)
                  end), S hs);
  rs_data := fun _ => Ok [];
  encrypt_with_ad := seal;
  decrypt_with_ad := open;
  PROLOGUE := [x57; x41; x05; x02];
  CERTIFICATE_ISSUER := "WhatsAppLongTerm1";
  WHATSAPP_LONG_TERM := [];
  FLAG_COMPRESSED := 2;
  BUILD_HASH_decoded := [x00];
  DEFAULT_BROWSER_KIND := ("Ubuntu", "Chrome", "20.0.04");
  WHATSAPP_WEB_VERSION := (2, 2142, 12);
  verifySignature := fun _ _ _ => Ok true;
  HandshakeMessage_ParseFromString := fun b =>
    Ok {| clientHello := None;
          serverHello := Some {| sh_ephemeral := take 1 b;
                                 sh_static := take 1 (drop 1 b);
                                 sh_payload := drop 2 b |};
          clientFinish := None |};
  HandshakeMessage_SerializeToString := fun m =>
    match clientHello m, clientFinish m with
    | Some h, _ => ch_ephemeral h
    | _, Some f => (cf_static f ++ cf_payload f)
    | _, _ => []
    end;
  NoiseCertificate_ParseFromString := fun b =>
    Ok {| cert_details := b; cert_signature := [] |};
  Details_ParseFromString := details;
  ClientPayload_SerializeToString := fun p =>
    [if passive p then x01 else x00];
  CompanionProps_SerializeToString := fun _ => [];
  WABinaryWriter_getData := getData;
  WABinaryReader_readNode := readNode;
  splitJid := fun _ => Ok ("6281234", "", "7", "s.whatsapp.net");
  inflate := fun b => Ok b;
  generateRandomNumber := fun k _ => pretty (Z.of_nat k);
  AuthState_new := authState0;
  int_of_str := to_int;
  Failure_str := fun _ => "" |}.

#[export] Instance handlers : Handlers := {|
  createNodeHander := fun t =>
    if String.eqb t "failure" then Ok (Some FailureHandler) else Ok None |}.

End Sample.

(** ** Sample connections and messages *)

Module Runs.

Import Sample.

(** A connection just built by the factory, at wall time [1700000000]. *)
Definition s0 : State := buildProtocol None 1700000000.

Definition record_failure (f : Failure) (s : State) : State :=
  set_conn (with_failure (Some f)) s.

(** The connection after [authenticate]: client hello sent, waiting
    for the ServerHello. *)
Definition s_hello : State := (authenticate s0).2.

(** A ServerHello whose certificate has no expiry, and the connection
    once it has arrived: both ciphers installed, the keep-alive running,
    the authentication future still pending. *)
Definition serverHello0 : bytes := [x00; x00; x02; x01; x02].

Definition s_handshaken : State := (onMessage serverHello0 true s_hello).2.

(** The same after the server's acknowledgement ([authSuccess]): the
    authentication future fired. *)
Definition s_auth : State := (authSuccess s_handshaken).2.

(** A sealed frame with [<failure code="401"/>]; a frame that
    declares 9 bytes where 3 follow; ciphertexts of the sample cipher,
    the first byte the nonce, the second the flag byte. *)
Definition frame_failure401 : bytes := [x00; x00; x03; x00; x00; x03].

Definition frame_overlong : bytes := [x00; x00; x09; x00; x00; x01].

Definition sealed_iqA_1 : bytes := [x01; x00; x01].

Definition sealed_iqA : bytes := [x00; x00; x01].
Definition sealed_iqB : bytes := [x01; x00; x02].

(** ServerHello messages whose certificate expires at the current
    second, and one second before it. *)
Definition serverHello_now : bytes :=
  [x00; x00; x06; x01; x02; x65; x53; xf1; x00].
Definition serverHello_expired : bytes :=
  [x00; x00; x06; x01; x02; x65; x53; xf0; xff].

Definition sh_now : ServerHello :=
  {| sh_ephemeral := [x01]; sh_static := [x02];
     sh_payload := [x65; x53; xf1; x00] |}.
Definition sh_expired : ServerHello :=
  {| sh_ephemeral := [x01]; sh_static := [x02];
     sh_payload := [x65; x53; xf0; xff] |}.

End Runs.

(** Messages as attribute mappings, and a message to acknowledge. *)
Module MoreRuns.

Import Sample Runs.

#[export] Instance messages : Messages := {|
  Message := gmap string string;
  Message_getitem := fun m k =>
    match m !! k with
    | Some v => Ok v
    | None => Raise (KeyError k)
    end |}.

Definition inbox_message : @Message messages :=
  <["from" := "6285@s.whatsapp.net"]> (<["id" := "3EB0"]> (∅ : gmap string string)).

(** Ciphertexts the sample cipher rejects at nonce 0, opens to an
    end-of-stream, and opens to an empty plaintext. *)
Definition sealed_wrong_nonce : bytes := [x05; x00; x01].
Definition sealed_stream_end : bytes := [x00; x00].
Definition sealed_empty : bytes := [x00].

End MoreRuns.

(** * Properties *)

Section Properties.

Context `{C : Collaborators} `{H : !Handlers}.

#[local] Arguments fire : simpl never.

(** ** Closing the connection *)

Lemma onClose_authFailure s f d :
  _failure (conn s) = Some f ->
  auth_pending s d ->
  exists s',
    onClose s = (Ok tt, s') /\
    deferreds (world s') !! d = Some (Errbacked f) /\
    authDeferred (factory s') = None /\
    _failure (conn s') = None /\
    events (world s') = events (world s) /\
    wire (world s') = wire (world s).
Proof.
  intros Hf [Ha Hd].
  destruct s as [c fa w]. cbn in Hf, Ha, Hd.
  unfold onClose, bind, get. cbn [conn].
  destruct (_keepAliveLoop c) as [[[] ?]|] eqn:E;
    cbn; rewrite ?Hf; cbn; rewrite Ha; cbn;
    unfold authFailure, bind, get; cbn; rewrite Ha; cbn;
    unfold errback, Deferred_fire; cbn; rewrite Hd; cbn;
    (eexists; split; [reflexivity|]; cbn;
     repeat split; try reflexivity;
     apply list_lookup_insert_eq; eapply lookup_lt_Some; eauto).
Qed.

(** Firing an event appends it to the events and runs the factory's
    listener, which can only fire [readyDeferred]. *)
Lemma fire_spec e s :
  exists s',
    fire e s = (Ok tt, s') /\
    conn s' = conn s /\
    authDeferred (factory s') = authDeferred (factory s) /\
    events (world s') = events (world s) ++ [e] /\
    wire (world s') = wire (world s) /\
    received (world s') = received (world s) /\
    length (deferreds (world s')) = length (deferreds (world s)) /\
    (forall d, readyDeferred (factory s) <> Some d ->
               deferreds (world s') !! d = deferreds (world s) !! d).
Proof.
  destruct s as [c fa w].
  unfold fire, bind, modify, try_except. cbn.
  destruct e; unfold _onOpen, _onClose, bind, get; cbn;
    (destruct (readyDeferred fa) as [r|] eqn:Er; cbn;
     [ unfold callback, errback, Deferred_fire; cbn;
       destruct (deferreds w !! r) as [[]|] eqn:Ed; cbn;
       eexists; split; try reflexivity; cbn;
       rewrite ?length_insert;
       repeat split; try reflexivity;
       intros d Hd; try reflexivity;
       apply list_lookup_insert_ne; congruence
     | eexists; split; [reflexivity|]; cbn; repeat split; reflexivity ]).
Qed.


(** ** Requests *)

(** What [sendMessageNode] can change: the send cipher and the wire. *)
Lemma sendMessageNode_frame node s :
  let s' := (sendMessageNode node s).2 in
  with_sendCipher (_sendCipher (conn s)) (conn s') = conn s /\
  factory s' = factory s /\
  with_wire (wire (world s)) (world s') = world s.
Proof.
  destruct s as [c fa [ds wi ev re dr t]]. destruct c.
  unfold sendMessageNode, bind, lift, get. cbn.
  destruct (WABinaryWriter_getData node); cbn; [|done].
  destruct _sendCipher0 as [k|]; cbn; [|done].
  destruct (encrypt_with_ad k [] (x00 :: a)) as [[enc|e] k']; cbn; done.
Qed.

(** Without a send cipher [sendMessageNode] raises and changes
    nothing. *)
Lemma sendMessageNode_no_cipher node s :
  _sendCipher (conn s) = None ->
  exists e, sendMessageNode node s = (Raise e, s).
Proof.
  intros Hc. unfold sendMessageNode, bind, lift, get. cbn.
  destruct (WABinaryWriter_getData node); cbn; [|eauto].
  rewrite Hc. cbn. eauto.
Qed.

(** [request] allocates the Deferred and stores it under the node's id
    before it sends, whatever the sending does. *)
#[local] Arguments sendMessageNode : simpl never.

Lemma request_inserts node id s :
  Node_getitem node "id" = Ok id ->
  let d := length (deferreds (world s)) in
  let s' := (request node s).2 in
  _pendingRequest (conn s') = <[id := d]> (_pendingRequest (conn s)) /\
  deferreds (world s') = deferreds (world s) ++ [Pending].
Proof.
  intros Hid d s'. subst s'. unfold request, bind, lift.
  cbn. rewrite Hid. cbn.
  match goal with |- context [sendMessageNode node ?st] =>
    pose proof (sendMessageNode_frame node st) as (Hc & _ & Hw);
    destruct (sendMessageNode node st) as [[[]|e] s1] end;
    cbn in *.
  - split.
    + apply (f_equal _pendingRequest) in Hc. exact Hc.
    + apply (f_equal deferreds) in Hw. exact Hw.
  - split.
    + apply (f_equal _pendingRequest) in Hc. exact Hc.
    + apply (f_equal deferreds) in Hw. exact Hw.
Qed.

(** What [onClose] can change of the request table and of the
    Deferreds: nothing of the table, and no Deferred but the two of the
    factory. *)
Lemma onClose_frame s :
  let s' := (onClose s).2 in
  _pendingRequest (conn s') = _pendingRequest (conn s) /\
  (forall d, authDeferred (factory s) <> Some d ->
             readyDeferred (factory s) <> Some d ->
             deferreds (world s') !! d = deferreds (world s) !! d).
Proof.
  destruct s as [c fa w]. cbn zeta.
  unfold onClose, bind, get. cbn [conn].
  set (k := match _keepAliveLoop c with
            | Some l => if running l
                        then modify (set_conn (with_keepAliveLoop None))
                        else ret tt
            | None => ret tt
            end).
  assert (Hk : exists c', k {| conn := c; factory := fa; world := w |}
                 = (Ok tt, {| conn := c'; factory := fa; world := w |})
                 /\ _failure c' = _failure c
                 /\ _pendingRequest c' = _pendingRequest c).
  { subst k. destruct (_keepAliveLoop c) as [[[] ?]|]; cbn; eauto. }
  destruct Hk as (c' & -> & Hf & Hp). cbn.
  assert (Hfire : forall e c2, _pendingRequest c2 = _pendingRequest c ->
    let s' := (fire e {| conn := c2; factory := fa; world := w |}).2 in
    _pendingRequest (conn s') = _pendingRequest c /\
    (forall d, authDeferred fa <> Some d -> readyDeferred fa <> Some d ->
               deferreds (world s') !! d = deferreds w !! d)).
  { intros e c2 Hc2.
    destruct (fire_spec e {| conn := c2; factory := fa; world := w |})
      as (s' & -> & Hc & _ & _ & _ & _ & _ & Hd). cbn in *.
    rewrite Hc. split; [exact Hc2|]. intros d _ Hr. apply Hd, Hr. }
  destruct (_failure c') as [f|] eqn:Ef; cbn.
  - destruct (authDeferred fa) as [a|] eqn:Ea; cbn.
    + unfold authFailure, bind, get. cbn. rewrite Ea. cbn.
      unfold errback, Deferred_fire. cbn.
      destruct (deferreds w !! a) as [[]|] eqn:Ed; cbn;
        (split; [exact Hp|]); intros d Hd _; try reflexivity.
      apply list_lookup_insert_ne. congruence.
    + apply Hfire. exact Hp.
  - apply Hfire. exact Hp.
Qed.

(** C1 (as amended).  Closing the connection does not touch the
    pending-request table: every slot is still there after [onClose],
    and its request future is in the state it was in, not failed.  The
    table is a mapping, so it has at most one slot per node id: a
    request stores its fresh future under the node's id, in the place of
    any slot already there. *)
Theorem onClose_keeps_pendingRequest s :
  (let s' := (onClose s).2 in
   _pendingRequest (conn s') = _pendingRequest (conn s) /\
   forall id d,
     _pendingRequest (conn s) !! id = Some d ->
     authDeferred (factory s) <> Some d ->
     readyDeferred (factory s) <> Some d ->
     deferreds (world s') !! d = deferreds (world s) !! d) /\
  (forall node id,
     Node_getitem node "id" = Ok id ->
     let s' := (request node s).2 in
     let d := length (deferreds (world s)) in
     _pendingRequest (conn s') !! id = Some d /\
     deferreds (world s') !! d = Some Pending /\
     forall id', id' <> id ->
       _pendingRequest (conn s') !! id' = _pendingRequest (conn s) !! id').
Proof.
  split.
  - destruct (onClose_frame s) as [Hp Hd]. split; [exact Hp|].
    intros id d _ Ha Hr. apply Hd; assumption.
  - intros node id Hid. cbn zeta.
    destruct (request_inserts node id s Hid) as [Hp Hd].
    rewrite Hp, Hd. split; [apply lookup_insert_eq|]. split.
    + rewrite lookup_app_r by lia. by rewrite Nat.sub_diag.
    + intros id' Hne. apply lookup_insert_ne. congruence.
Qed.


(** ** Failure nodes *)

(** The events of [onClose]: none, or the one close event. *)
Lemma onClose_events s :
  let s' := (onClose s).2 in
  events (world s') = events (world s) \/
  events (world s')
    = events (world s) ++ [EvClose (excReason (_failure (conn s)))].
Proof.
  destruct s as [c fa w]. cbn zeta.
  unfold onClose, bind, get. cbn [conn].
  set (k := match _keepAliveLoop c with
            | Some l => if running l
                        then modify (set_conn (with_keepAliveLoop None))
                        else ret tt
            | None => ret tt
            end).
  assert (Hk : exists c', k {| conn := c; factory := fa; world := w |}
                 = (Ok tt, {| conn := c'; factory := fa; world := w |})
                 /\ _failure c' = _failure c).
  { subst k. destruct (_keepAliveLoop c) as [[[] ?]|]; cbn; eauto. }
  destruct Hk as (c' & -> & Hf). cbn. rewrite Hf.
  destruct (_failure c) as [f|] eqn:Ef; cbn.
  - destruct (authDeferred fa) as [a|] eqn:Ea; cbn.
    + left. unfold authFailure, bind, get. cbn. rewrite Ea. cbn.
      unfold errback, Deferred_fire. cbn.
      destruct (deferreds w !! a) as [[]|]; reflexivity.
    + right.
      match goal with |- context [fire ?e ?st] =>
        destruct (fire_spec e st) as (s' & -> & _ & _ & Hev & _) end.
      exact Hev.
  - right.
    match goal with |- context [fire ?e ?st] =>
      destruct (fire_spec e st) as (s' & -> & _ & _ & Hev & _) end.
    exact Hev.
Qed.

Lemma excReason_isLoggedOut failure a r :
  excReason failure = ConnectionClosedError (Some true) a r ->
  failure = Some (NodeStreamError "401").
Proof.
  destruct failure as [[]|]; cbn; try discriminate.
  destruct (String.eqb code "401") eqn:E; [|discriminate].
  apply String.eqb_eq in E. congruence.
Qed.

#[local] Arguments _handleFailure : simpl never.

(** C3 (as amended).  A [failure] node dispatched after authentication
    is handled by [FailureHandler], which then does nothing: the
    dispatch records no failure, whatever the node's attributes, and
    changes nothing but the trace of received nodes.  When no failure
    is recorded, the close that follows emits the clean-close event.  A
    close event has isLoggedOut=true only when the failure recorded on
    the connection is a NodeStreamError with code "401". *)
Theorem failure_node_after_auth node s :
  createNodeHander (tag node) = Ok (Some FailureHandler) ->
  authDeferred (factory s) = None ->
  let s1 := set_world (fun w => with_received (received w ++ [node]) w) s in
  messageNodeReceived node s = (Ok tt, s1) /\
  _failure (conn s1) = _failure (conn s) /\
  (_failure (conn s) = None ->
   events (world (onClose s1).2)
     = events (world s)
         ++ [EvClose (ConnectionClosedError None None
                        "Connection Closed Cleanly")]) /\
  (forall a r,
     events (world (onClose s1).2)
       = events (world s) ++ [EvClose (ConnectionClosedError (Some true) a r)] ->
     _failure (conn s) = Some (NodeStreamError "401")).
Proof.
  intros Hh Ha s1.
  assert (Hrun : messageNodeReceived node s = (Ok tt, s1)).
  { unfold messageNodeReceived, bind, modify, try_except, lift. cbn.
    rewrite Hh. cbn.
    unfold FailureHandler_handleNode, _authDone, bind, get. cbn.
    rewrite Ha. reflexivity. }
  split; [exact Hrun|]. split; [reflexivity|].
  assert (Hev : events (world s1) = events (world s)) by reflexivity.
  assert (Hfa : _failure (conn s1) = _failure (conn s)) by reflexivity.
  pose proof (onClose_events s1) as Hc. cbn zeta in Hc.
  rewrite Hev, Hfa in Hc.
  split.
  - intros Hnone. rewrite Hnone in Hc. cbn in Hc.
    destruct Hc as [Hc|Hc]; [|exact Hc].
    exfalso. clear - Hc Hnone Ha.
    destruct s as [c fa w]. cbn in *.
    unfold onClose, bind, get in Hc. cbn in Hc.
    destruct (_keepAliveLoop c) as [[[] ?]|]; cbn in Hc;
      rewrite Hnone in Hc; cbn in Hc;
      match type of Hc with context [fire ?e ?st] =>
        destruct (fire_spec e st) as (s' & E & _ & _ & Hev & _);
        rewrite E in Hc; cbn in Hc, Hev; rewrite Hev in Hc end;
      apply (f_equal length) in Hc; rewrite length_app in Hc; cbn in Hc; lia.
  - intros a r E. rewrite E in Hc. destruct Hc as [Hc|Hc].
    + apply (f_equal length) in Hc. rewrite length_app in Hc. cbn in Hc. lia.
    + apply app_inj_tail in Hc as [_ Hc].
      injection Hc as Hc. symmetry in Hc.
      apply excReason_isLoggedOut in Hc. exact Hc.
Qed.

(** ** Frames *)

Lemma byte_val_range b : 0 <= byte_val b < 256.
Proof.
  unfold byte_val. pose proof (Byte.to_N_bounded b). lia.
Qed.

Lemma byte_val_of_Z z : byte_val (byte_of_Z z) = z mod 256.
Proof.
  unfold byte_val, byte_of_Z.
  assert (Hr : 0 <= z mod 256 < 256) by (apply Z.mod_pos_bound; lia).
  destruct (Byte.of_N (Z.to_N (z mod 256))) as [b|] eqn:E.
  - apply Byte.to_of_N in E. rewrite E. lia.
  - apply Byte.of_N_None_iff in E. lia.
Qed.

Lemma length_encodeInt_nat v n : length (encodeInt_nat v n) = n.
Proof.
  revert v. induction n as [|n IH]; intros v; cbn; [done|].
  rewrite length_app, IH. cbn. lia.
Qed.

Lemma length_encodeInt v n : 0 <= n -> Z.of_nat (length (encodeInt v n)) = n.
Proof. intros. unfold encodeInt. rewrite length_encodeInt_nat. lia. Qed.

Lemma big_endian_snoc data b :
  big_endian (data ++ [b]) = big_endian data * 256 + byte_val b.
Proof. unfold big_endian. by rewrite fold_left_app. Qed.

Lemma big_endian_nonneg data : 0 <= big_endian data.
Proof.
  induction data as [|b data IH] using rev_ind; [done|].
  rewrite big_endian_snoc. pose proof (byte_val_range b). lia.
Qed.

Lemma big_endian_encodeInt_nat v n :
  big_endian (encodeInt_nat v n) = v mod 256 ^ Z.of_nat n.
Proof.
  revert v. induction n as [|n IH]; intros v.
  - cbn. by rewrite Z.mod_1_r.
  - cbn [encodeInt_nat]. rewrite big_endian_snoc, IH, byte_val_of_Z.
    rewrite Nat2Z.inj_succ, Z.pow_succ_r by lia.
    assert (0 < 256 ^ Z.of_nat n) by (apply Z.pow_pos_nonneg; lia).
    rewrite Z.rem_mul_r by lia. lia.
Qed.

(** [decodeInt] reads back what [encodeInt] wrote. *)
Lemma decodeInt_encodeInt v n rest :
  0 <= n -> 0 <= v < 256 ^ n ->
  decodeInt (encodeInt v n ++ rest) n = v.
Proof.
  intros Hn Hv. unfold decodeInt, encodeInt.
  rewrite take_app_length' by (by rewrite length_encodeInt_nat).
  fold (big_endian (encodeInt_nat v (Z.to_nat n))).
  rewrite big_endian_encodeInt_nat, Z2Nat.id by lia.
  apply Z.mod_small. lia.
Qed.

Lemma decodeInt_nonneg data n : 0 <= decodeInt data n.
Proof. apply big_endian_nonneg. Qed.

#[local] Arguments onMessage_frame : simpl never.

(** More fuel than the message has bytes changes nothing. *)
Lemma onMessage_loop_fuel f1 f2 message s :
  (length message <= f1)%nat -> (length message <= f2)%nat ->
  onMessage_loop f1 message s = onMessage_loop f2 message s.
Proof.
  revert f2 message s. induction f1 as [|f1 IH]; intros f2 message s H1 H2.
  - destruct message; [|cbn in H1; lia]. by destruct f2.
  - destruct message as [|b message]; [by destruct f2|].
    destruct f2 as [|f2]; [cbn in H2; lia|].
    cbn [onMessage_loop]. unfold bind.
    destruct (onMessage_frame _ s) as [[[]|e] s']; [|done].
    apply IH; unfold slice_from; rewrite length_drop;
      pose proof (decodeInt_nonneg (slice 0 3 (b :: message)) 3);
      cbn [length] in *; lia.
Qed.

(** One round of the loop. *)
Lemma onMessage_loop_step message s :
  message <> [] ->
  let messageLength := decodeInt (slice 0 3 message) 3 in
  let rest := slice_from (messageLength + 3) message in
  onMessage_loop (length message) message s
  = (onMessage_frame (slice 3 (messageLength + 3) message) ;;
     onMessage_loop (length rest) rest) s.
Proof.
  intros Hne. destruct message as [|b message]; [done|].
  cbn zeta. cbn [length onMessage_loop]. unfold bind.
  destruct (onMessage_frame _ s) as [[[]|e] s']; [|done].
  apply onMessage_loop_fuel; [|done].
  unfold slice_from. rewrite length_drop.
  pose proof (decodeInt_nonneg (slice 0 3 (b :: message)) 3).
  cbn [length]. lia.
Qed.


Lemma messageNodeReceived_ok node s :
  exists s', messageNodeReceived node s = (Ok tt, s').
Proof.
  unfold messageNodeReceived, bind, modify, try_except, lift.
  destruct (createNodeHander (tag node)) as [[h|]|e]; cbn.
  - destruct (handleNode h node _) as [[[]|e] s']; [eauto|].
    unfold _handleFailure, bind, modify, _authDone, get. cbn.
    destruct (authDeferred (factory s')); cbn; eauto.
  - eauto.
  - unfold _handleFailure, bind, modify, _authDone, get. cbn.
    destruct (authDeferred (factory s)); cbn; eauto.
Qed.

#[local] Arguments messageNodeReceived : simpl never.

(** A well-formed frame whose ciphertext opens and holds a node: the
    cipher advances and the node is dispatched. *)
Lemma onMessage_frame_node c p N k k' s :
  _recvCipher (conn s) = Some k ->
  decrypt_with_ad k [] c = (Ok p, k') ->
  readFrame p = Ok (Some N) ->
  onMessage_frame c s
  = messageNodeReceived N (set_conn (with_recvCipher (Some k')) s).
Proof.
  intros Hk Hd Hr. unfold onMessage_frame, bind, get, lift. cbn.
  rewrite Hk, Hd. cbn. rewrite Hr. reflexivity.
Qed.

Lemma frame_split c rest :
  Z.of_nat (length c) < 2 ^ 24 ->
  let message := encodeInt (Z.of_nat (length c)) 3 ++ c ++ rest in
  decodeInt (slice 0 3 message) 3 = Z.of_nat (length c) /\
  slice 3 (Z.of_nat (length c) + 3) message = c /\
  slice_from (Z.of_nat (length c) + 3) message = rest.
Proof.
  intros Hc message. subst message.
  assert (Hl : length (encodeInt (Z.of_nat (length c)) 3) = 3%nat)
    by apply length_encodeInt_nat.
  assert (H1 : slice 0 3 (encodeInt (Z.of_nat (length c)) 3 ++ c ++ rest)
               = encodeInt (Z.of_nat (length c)) 3).
  { unfold slice. cbn [Z.to_nat drop]. by apply take_app_length'. }
  split; [|split].
  - rewrite H1.
    pose proof (decodeInt_encodeInt (Z.of_nat (length c)) 3 []) as Hd.
    rewrite app_nil_r in Hd. apply Hd; lia.
  - unfold slice. replace (Z.to_nat 3) with 3%nat by done.
    rewrite drop_app_length' by done.
    apply take_app_length'. lia.
  - unfold slice_from.
    replace (Z.to_nat (Z.of_nat (length c) + 3)) with (3 + length c)%nat by lia.
    rewrite <- drop_drop, drop_app_length' by done.
    by rewrite drop_app_length.
Qed.


(** ** The client payload *)

(** C8.  The payload builder chooses its mode by the presence of
    [authState.me].  Without [me]: passive=false and a CompanionRegData
    with eRegid the 4 bytes of the registration id, big-endian,
    eKeytype the one byte 5, eIdent the signed identity public key,
    eSkeyId the 3 bytes of the signed prekey id, eSkeyVal the signed
    prekey's public key and eSkeySig its signature.  With [me]:
    passive=true, no regData, and username and device the integers
    parsed from the user and device parts of [me.jid]. *)
Theorem buildClientPayload_modes s a :
  authState (conn s) = Some a ->
  (me a = None ->
   exists p rd,
     _buildClientPayloadHandshake s = (Ok p, s) /\
     passive p = false /\
     regData p = Some rd /\
     eRegid rd = encodeInt (registrationId a) 4 /\
     length (eRegid rd) = 4%nat /\
     (0 <= registrationId a < 2 ^ 32 ->
      decodeInt (eRegid rd) 4 = registrationId a) /\
     eKeytype rd = [x05] /\
     eIdent rd = publicKey (signedIdentityKey a) /\
     eSkeyId rd = encodeInt (spk_id (signedPrekey a)) 3 /\
     length (eSkeyId rd) = 3%nat /\
     (0 <= spk_id (signedPrekey a) < 2 ^ 24 ->
      decodeInt (eSkeyId rd) 3 = spk_id (signedPrekey a)) /\
     eSkeyVal rd = publicKey (spk_keyPair (signedPrekey a)) /\
     eSkeySig rd = spk_signature (signedPrekey a) /\
     username p = None /\ device p = None) /\
  (forall m user agent dev server u d,
     me a = Some m ->
     splitJid (jid m) = Ok (user, agent, dev, server) ->
     int_of_str user = Ok u ->
     int_of_str dev = Ok d ->
     exists p,
       _buildClientPayloadHandshake s = (Ok p, s) /\
       passive p = true /\
       regData p = None /\
       username p = Some u /\
       device p = Some d).
Proof.
  intros Ha. split.
  - intros Hme.
    unfold _buildClientPayloadHandshake, getAuthState, bind, get. cbn.
    rewrite Ha. cbn. rewrite Hme. cbn.
    eexists _, _. split; [reflexivity|]. cbn.
    repeat split; try reflexivity.
    + intros Hr.
      rewrite <- (app_nil_r (encodeInt _ 4)).
      apply decodeInt_encodeInt; lia.
    + intros Hr.
      rewrite <- (app_nil_r (encodeInt _ 3)).
      apply decodeInt_encodeInt; lia.
  - intros m user agent dev server u d Hme Hs Hu Hd.
    unfold _buildClientPayloadHandshake, getAuthState, bind, get, lift. cbn.
    rewrite Ha. cbn. rewrite Hme. cbn. rewrite Hs. cbn.
    rewrite Hu. cbn. rewrite Hd. cbn.
    eexists. split; [reflexivity|]. cbn. repeat split.
Qed.

(** ** Message ids *)

Lemma generateMessageId_step s :
  tag_wf s ->
  let c := _messageTagCounter (conn s) in
  let p := prefix_in_use s in
  exists s',
    _generateMessageId s = (Ok (messageTag_of p (c + 1)), s') /\
    1 <= c + 1 <= 99 /\
    (c + 1 = 99 ->
     _messageTagPrefix (conn s') = None /\ _messageTagCounter (conn s') = 0) /\
    (c + 1 < 99 ->
     _messageTagPrefix (conn s') = Some p /\
     _messageTagCounter (conn s') = c + 1) /\
    tag_wf s'.
Proof.
  intros Hwf c p. subst c p. unfold tag_wf in *.
  destruct s as [c fa w]. destruct c. cbn in *.
  unfold _generateMessageId, prefix_in_use, messageTag_of, bind, get. cbn.
  destruct _messageTagPrefix0 as [p|]; cbn;
    (destruct (_messageTagCounter0 + 1 =? 99)%Z eqn:E; cbn;
     [apply Z.eqb_eq in E | apply Z.eqb_neq in E];
     eexists; (split; [reflexivity|]); cbn; unfold tag_wf; cbn;
     repeat split; intros; try lia; try reflexivity).
Qed.

Lemma messageTag_of_inj p : Inj (=) (=) (messageTag_of p).
Proof.
  intros k1 k2 E. unfold messageTag_of, str in E.
  apply (inj (String.app p)) in E.
  apply (inj (String.app "-")) in E.
  by apply (inj pretty) in E.
Qed.

#[local] Arguments _generateMessageId : simpl never.

(** Calls that stay within one prefix period. *)
Lemma generateMessageIds_period n s :
  tag_wf s ->
  _messageTagCounter (conn s) + Z.of_nat n <= 99 ->
  let c := _messageTagCounter (conn s) in
  let p := prefix_in_use s in
  exists s',
    generateMessageIds n s
      = (Ok (messageTag_of p <$> seqZ (c + 1) (Z.of_nat n)), s') /\
    (n <> 0%nat -> c + Z.of_nat n = 99 ->
     _messageTagPrefix (conn s') = None /\ _messageTagCounter (conn s') = 0) /\
    (n <> 0%nat -> c + Z.of_nat n < 99 ->
     _messageTagPrefix (conn s') = Some p /\
     _messageTagCounter (conn s') = c + Z.of_nat n).
Proof.
  revert s. induction n as [|n IH]; intros s Hwf Hn; cbn zeta.
  - eexists. split; [reflexivity|]. split; intros; done.
  - destruct (generateMessageId_step s Hwf) as (s1 & E1 & Hr & H99 & Hlt & Hwf1).
    cbn [generateMessageIds]. unfold bind at 1. rewrite E1.
    rewrite seqZ_cons by lia. cbn [fmap list_fmap].
    destruct n as [|n].
    + cbn. eexists. split; [reflexivity|].
      split; intros _ Hc; [apply H99 | apply Hlt]; lia.
    + destruct Hlt as [Hp1 Hc1]; [lia|].
      destruct (IH s1 Hwf1) as (s' & E & Hend & Hmid); [lia|].
      assert (Hp : prefix_in_use s1 = prefix_in_use s).
      { unfold prefix_in_use at 1. by rewrite Hp1. }
      rewrite Hp, Hc1 in E. rewrite Hc1 in Hend, Hmid.
      unfold bind. rewrite E. cbn [ret].
      replace (Z.pred (Z.of_nat (S (S n)))) with (Z.of_nat (S n)) by lia.
      replace (Z.succ (_messageTagCounter (conn s) + 1))
        with (_messageTagCounter (conn s) + 1 + 1) by lia.
      eexists. split; [reflexivity|].
      split; intros _ Hc.
      * apply Hend; lia.
      * destruct Hmid as [Hq Hk]; [lia|lia|].
        split; [by rewrite Hq, Hp | lia].
Qed.

(** C9.  Every id the generator returns is prefix-suffix with a suffix
    between 1 and 99, never 100.  The call that returns suffix 99
    discards the prefix, so that the next call draws a new one; any
    other call keeps it.  Within one prefix period the suffixes are
    consecutive, hence strictly increasing, and the ids pairwise
    different. *)
Theorem generateMessageId_ids n s :
  tag_wf s ->
  (exists ids s',
      generateMessageIds n s = (Ok ids, s') /\
      length ids = n /\
      tag_wf s' /\
      Forall (fun id => exists p k, id = messageTag_of p k /\ 1 <= k <= 99) ids) /\
  (let c := _messageTagCounter (conn s) in
   exists s',
     _generateMessageId s = (Ok (messageTag_of (prefix_in_use s) (c + 1)), s') /\
     (c + 1 = 99 ->
      _messageTagPrefix (conn s') = None /\ _messageTagCounter (conn s') = 0 /\
      prefix_in_use s'
        = generateRandomNumber (draws (world s')) 5 +:+ "." +:+
          generateRandomNumber (S (draws (world s'))) 5) /\
     (c + 1 < 99 ->
      prefix_in_use s' = prefix_in_use s /\
      _messageTagCounter (conn s') = c + 1)) /\
  (_messageTagCounter (conn s) + Z.of_nat n <= 99 ->
   let c := _messageTagCounter (conn s) in
   exists ids s',
     generateMessageIds n s = (Ok ids, s') /\
     ids = messageTag_of (prefix_in_use s) <$> seqZ (c + 1) (Z.of_nat n) /\
     NoDup ids).
Proof.
  intros Hwf. split; [|split].
  - revert s Hwf. induction n as [|n IH]; intros s Hwf.
    + eexists _, _. split; [reflexivity|]. split; [reflexivity|].
      split; [exact Hwf|constructor].
    + destruct (generateMessageId_step s Hwf) as (s1 & E1 & Hr & _ & _ & Hwf1).
      destruct (IH s1 Hwf1) as (ids & s' & E & Hl & Hwf' & Hall).
      cbn [generateMessageIds]. unfold bind. rewrite E1, E. cbn [ret].
      eexists _, _. split; [reflexivity|]. split; [cbn; lia|].
      split; [exact Hwf'|]. constructor; [|exact Hall]. eauto.
  - cbn zeta.
    destruct (generateMessageId_step s Hwf) as (s1 & E1 & Hr & H99 & Hlt & _).
    exists s1. split; [exact E1|]. split.
    + intros Hc. destruct (H99 Hc) as [Hp Hk]. repeat split; try done.
      unfold prefix_in_use. by rewrite Hp.
    + intros Hc. destruct (Hlt Hc) as [Hp Hk]. split; [|done].
      unfold prefix_in_use at 1. by rewrite Hp.
  - intros Hn. cbn zeta.
    destruct (generateMessageIds_period n s Hwf Hn) as (s' & E & _).
    eexists _, s'. split; [exact E|]. split; [reflexivity|].
    apply NoDup_fmap_2; [apply messageTag_of_inj | apply NoDup_seqZ].
Qed.

(** ** The handshake driver *)

Lemma driver_frame_refl s : driver_frame s s.
Proof.
  repeat split. exists []. by rewrite app_nil_r.
Qed.

Lemma driver_frame_conn f s : driver_frame s (set_conn f s).
Proof.
  repeat split. exists []. cbn. by rewrite app_nil_r.
Qed.

Lemma driver_frame_trans s1 s2 s3 :
  (length (deferreds (world s1)) <= length (deferreds (world s2)))%nat ->
  driver_frame s1 s2 -> driver_frame s2 s3 -> driver_frame s1 s3.
Proof.
  intros Hl (Hf1 & He1 & Hr1 & Hd1 & sent1 & Hw1 & Hs1)
            (Hf2 & He2 & Hr2 & Hd2 & sent2 & Hw2 & Hs2).
  repeat split; try congruence.
  - intros d Hd. rewrite Hd2, Hd1; [done|done|lia].
  - exists (sent1 ++ sent2). rewrite Hw2, Hw1, app_assoc.
    split; [done|]. by apply Forall_app.
Qed.

Ltac case_scrutinee :=
  match goal with
  | |- context [match ?x with _ => _ end] =>
      lazymatch x with
      | context [match _ with _ => _ end] => fail
      | _ => destruct x eqn:?
      end
  end.

Lemma _doHandshake_verify_frame serverHello s :
  driver_frame s (_doHandshake_verify serverHello s).2 /\
  world (_doHandshake_verify serverHello s).2 = world s.
Proof.
  destruct s as [c fa w].
  unfold _doHandshake_verify, getHandshakeState, time_time, bind, get, lift,
    raise, modify, ret.
  cbn.
  repeat (case_scrutinee; cbn);
    (split; [|reflexivity]); repeat split;
    exists []; by rewrite app_nil_r.
Qed.

Lemma _buildClientPayloadHandshake_state s :
  (_buildClientPayloadHandshake s).2 = s.
Proof.
  unfold _buildClientPayloadHandshake, getAuthState, bind, get, lift, raise, ret.
  cbn. repeat (case_scrutinee; cbn); reflexivity.
Qed.

Lemma _doHandshake_finish_frame s :
  driver_frame s (_doHandshake_finish s).2 /\
  deferreds (world (_doHandshake_finish s).2) = deferreds (world s).
Proof.
  destruct (_doHandshake_finish s) as [r s'] eqn:E. cbn [snd].
  unfold _doHandshake_finish in E. unfold bind at 1 in E.
  pose proof (_buildClientPayloadHandshake_state s) as Hb.
  destruct (_buildClientPayloadHandshake s) as [[p|e] s0]; cbn in Hb; subst s0.
  2: { injection E as _ <-. split; [apply driver_frame_refl|reflexivity]. }
  destruct s as [c fa w].
  unfold getHandshakeState, _startKeepAliveLoop, sendMessage, bind, get, lift,
    raise, modify, ret in E.
  cbn in E.
  repeat (match type of E with
          | context [match ?x with _ => _ end] =>
              lazymatch x with
              | context [match _ with _ => _ end] => fail
              | _ => destruct x eqn:?
              end
          end; cbn in E);
    injection E as _ <-;
    (split; [|reflexivity]); repeat split;
    first [ exists []; by rewrite app_nil_r
          | eexists [_]; split; [reflexivity|];
            constructor; [eauto|constructor] ].
Qed.

Lemma _doHandshake_resume_frame serverHello s :
  driver_frame s (_doHandshake_resume serverHello s).2.
Proof.
  unfold _doHandshake_resume, bind.
  pose proof (_doHandshake_verify_frame serverHello s) as [Hv Hw].
  destruct (_doHandshake_verify serverHello s) as [[[]|e] s1]; cbn in *;
    [|exact Hv].
  pose proof (_doHandshake_finish_frame s1) as [Hf _].
  eapply driver_frame_trans; [|exact Hv|exact Hf].
  by rewrite Hw.
Qed.

Lemma _sendClientHello_frame s :
  driver_frame s (_sendClientHello s).2 /\
  deferreds (world (_sendClientHello s).2) = deferreds (world s).
Proof.
  destruct s as [c fa w].
  unfold _sendClientHello, sendMessage, bind, get, lift, raise, modify, ret.
  cbn.
  repeat (case_scrutinee; cbn);
    (split; [|reflexivity]); repeat split;
    first [ exists []; by rewrite app_nil_r
          | eexists [_]; split; [reflexivity|];
            constructor; [eauto|constructor] ].
Qed.

(** The first segment of the generator, up to its suspension. *)
Lemma _waitServerHello_raises s e s1 :
  (_waitServerHello ;; ret tt) s = (Raise e, s1) ->
  driver_frame s s1 /\ deferreds (world s1) = deferreds (world s).
Proof.
  intros E. unfold _waitServerHello, bind at 1 2 in E.
  pose proof (_sendClientHello_frame s) as Hf.
  destruct (_sendClientHello s) as [[[]|e'] s']; cbn in *.
  - discriminate.
  - by injection E as _ <-.
Qed.

Lemma _handleFailure_default failure s :
  exists s',
    _handleFailure failure false s = (Ok tt, s') /\
    _failure (conn s') = Some failure /\
    world s' = world s /\
    factory s' = factory s /\
    (is_Some (authDeferred (factory s)) ->
     _sendCipher (conn s') = None /\ _recvCipher (conn s') = None).
Proof.
  unfold _handleFailure, _authDone, bind, get, modify, ret. cbn.
  destruct (authDeferred (factory s)) eqn:E; cbn;
    eexists; (split; [reflexivity|]); cbn;
    (split; [reflexivity|]); (split; [reflexivity|]); (split; [reflexivity|]).
  - intros _. split; reflexivity.
  - intros [? [=]].
Qed.

(** C2 (as amended).  Whatever a step of the handshake driver raises
    (the client hello and the wait for ServerHello, the certificate
    verification, the building and sending of ClientFinish) reaches
    [_handleFailure] with [disconnect] false: the exception is
    recorded, as it is, as the connection's failure, and while the
    authentication is pending both ciphers are cleared.  The websocket
    is not closed, no event is fired and the authentication future
    stays pending; it is failed with the recorded exception when the
    connection closes. *)
Theorem handshake_exception_recorded step s e s1 :
  step = (_waitServerHello ;; ret tt)
  \/ (exists serverHello, step = _doHandshake_resume serverHello) ->
  step s = (Raise e, s1) ->
  exists s2,
    _doHandshake_errback step s = (Ok tt, s2) /\
    _failure (conn s2) = Some e /\
    (is_Some (authDeferred (factory s)) ->
     _sendCipher (conn s2) = None /\ _recvCipher (conn s2) = None) /\
    (forall code, SendClose code ∈ wire (world s2) ->
                  SendClose code ∈ wire (world s)) /\
    events (world s2) = events (world s) /\
    forall d, auth_pending s d ->
      deferreds (world s2) !! d = Some Pending /\
      exists s3,
        onClose s2 = (Ok tt, s3) /\
        deferreds (world s3) !! d = Some (Errbacked e) /\
        events (world s3) = events (world s).
Proof.
  intros Hstep E.
  assert (Hfr : driver_frame s s1).
  { destruct Hstep as [->|[sh ->]].
    - exact (proj1 (_waitServerHello_raises s e s1 E)).
    - pose proof (_doHandshake_resume_frame sh s) as Hf.
      by rewrite E in Hf. }
  destruct Hfr as (Hfa & Hev & _ & Hd & sent & Hw & Hsent).
  destruct (_handleFailure_default e s1) as (s2 & E2 & Hf2 & Hw2 & Hfa2 & Hc2).
  exists s2. split.
  { unfold _doHandshake_errback, try_except. by rewrite E. }
  split; [exact Hf2|]. split.
  { intros Ha. apply Hc2. by rewrite Hfa. }
  split.
  { intros code. rewrite Hw2, Hw. intros [?|Hin]%elem_of_app; [done|].
    rewrite Forall_forall in Hsent.
    destruct (Hsent _ Hin) as (? & ? & [=]). }
  split; [by rewrite Hw2|].
  intros d [Ha Hp].
  assert (Hp2 : deferreds (world s2) !! d = Some Pending).
  { rewrite Hw2, Hd; [done|]. by eapply lookup_lt_Some. }
  split; [exact Hp2|].
  destruct (onClose_authFailure s2 e d Hf2) as (s3 & E3 & Hd3 & _ & _ & Hev3 & _).
  { split; [by rewrite Hfa2, Hfa | exact Hp2]. }
  exists s3. split; [exact E3|]. split; [exact Hd3|].
  by rewrite Hev3, Hw2.
Qed.

Lemma errback_records_failure serverHello s e s1 :
  _doHandshake_resume serverHello s = (Raise e, s1) ->
  exists s2,
    _doHandshake_errback (_doHandshake_resume serverHello) s = (Ok tt, s2) /\
    _failure (conn s2) = Some e.
Proof.
  intros E.
  destruct (_handleFailure_default e s1) as (s2 & E2 & Hf2 & _).
  exists s2. split; [|exact Hf2].
  unfold _doHandshake_errback, try_except. by rewrite E.
Qed.

(** C4 (as amended).  A certificate that passes the issuer, signature
    and key checks and has an [expires] field passes the verification
    exactly when [expires] is not below the current time in seconds.
    When it is below, the driver raises
    AuthenticationFailedError("Noise certificate expired"), which is
    recorded as the connection's failure.  A certificate whose
    [expires] equals the current time passes. *)
Theorem certificate_expiry serverHello s hs hs' buf cert det e :
  _noiseHandshakeState (conn s) = Some hs ->
  read_message hs (sh_ephemeral serverHello ++ sh_static serverHello
                     ++ sh_payload serverHello) = (Ok buf, hs') ->
  NoiseCertificate_ParseFromString buf = Ok cert ->
  Details_ParseFromString (cert_details cert) = Ok det ->
  issuer det = CERTIFICATE_ISSUER ->
  verifySignature WHATSAPP_LONG_TERM (cert_details cert) (cert_signature cert)
    = Ok true ->
  rs_data hs' = Ok (key det) ->
  expires det = Some e ->
  let s1 := set_conn (with_noiseHandshakeState (Some hs')) s in
  (now (world s) <= e -> _doHandshake_verify serverHello s = (Ok tt, s1)) /\
  (e = now (world s) -> _doHandshake_verify serverHello s = (Ok tt, s1)) /\
  (e < now (world s) ->
   _doHandshake_verify serverHello s
     = (Raise (AuthenticationFailedError "Noise certificate expired"), s1) /\
   exists s2,
     _doHandshake_errback (_doHandshake_resume serverHello) s = (Ok tt, s2) /\
     _failure (conn s2)
       = Some (AuthenticationFailedError "Noise certificate expired")).
Proof.
  intros Hhs Hread Hcert Hdet Hiss Hsig Hrs Hexp s1.
  assert (Hrun : _doHandshake_verify serverHello s
                 = (if (e <? now (world s))%Z
                    then Raise (AuthenticationFailedError
                                  "Noise certificate expired")
                    else Ok tt, s1)).
  { unfold _doHandshake_verify, getHandshakeState, time_time, bind, get, lift,
      raise, modify, ret.
    cbn. rewrite Hhs. cbn. rewrite Hread. cbn. rewrite Hcert. cbn.
    rewrite Hdet. cbn. rewrite Hiss, String.eqb_refl. cbn.
    rewrite Hsig. cbn. rewrite Hrs. cbn.
    rewrite bool_decide_eq_true_2 by reflexivity. cbn.
    rewrite Hexp. cbn. by destruct (e <? now (world s))%Z. }
  assert (Hge : now (world s) <= e ->
                _doHandshake_verify serverHello s = (Ok tt, s1)).
  { intros Hle. rewrite Hrun.
    by rewrite (proj2 (Z.ltb_ge e (now (world s))) Hle). }
  split; [exact Hge|]. split; [intros ->; apply Hge; lia|].
  intros Hlt.
  assert (Hv : _doHandshake_verify serverHello s
               = (Raise (AuthenticationFailedError "Noise certificate expired"),
                  s1)).
  { rewrite Hrun. by rewrite (proj2 (Z.ltb_lt e (now (world s))) Hlt). }
  split; [exact Hv|].
  destruct (errback_records_failure serverHello s
              (AuthenticationFailedError "Noise certificate expired") s1)
    as (s2 & E & Hf).
  { unfold _doHandshake_resume, bind. by rewrite Hv. }
  eauto.
Qed.

End Properties.

(** * Further properties *)

Section MoreProperties.

Context `{C : Collaborators} `{H : !Handlers} `{MS : Messages}.

#[local] Arguments fire : simpl never.
#[local] Arguments sendMessageNode : simpl never.
#[local] Arguments _handleFailure : simpl never.
#[local] Arguments onMessage_frame : simpl never.
#[local] Arguments messageNodeReceived : simpl never.
#[local] Arguments _generateMessageId : simpl never.

Ltac case_split :=
  match goal with
  | |- context [match ?x with _ => _ end] =>
      lazymatch x with
      | context [match _ with _ => _ end] => fail
      | _ => destruct x eqn:?
      end
  end.

(** ** Inbound messages *)

(** X1.  Outside the handshake and without a receive cipher, a binary
    message of any content is consumed without any effect. *)
Theorem onMessage_without_recvCipher message isBinary s :
  _serverHelloDeferred (conn s) = None ->
  _recvCipher (conn s) = None ->
  onMessage message isBinary s = (Ok tt, s).
Proof.
  intros Hsh Hrc. unfold onMessage, bind, get. cbn. rewrite Hsh.
  generalize (length message) at 1. intros fuel. revert message.
  induction fuel as [|fuel IH]; intros message; [done|].
  destruct message as [|b message]; [done|].
  cbn [onMessage_loop]. unfold bind.
  assert (Hf : forall c, onMessage_frame c s = (Ok tt, s)).
  { intros c. unfold onMessage_frame, bind, get. cbn. by rewrite Hrc. }
  rewrite Hf. apply IH.
Qed.

Lemma length_prefix n : length (encodeInt n 3) = 3%nat.
Proof. apply length_encodeInt_nat. Qed.

Lemma onMessage_loop_frames ciphertexts s :
  Forall (fun c => Z.of_nat (length c) < 2 ^ 24) ciphertexts ->
  let message := concat (frame <$> ciphertexts) in
  onMessage_loop (length message) message s = onMessage_frames ciphertexts s.
Proof.
  intros Hall. revert s. induction Hall as [|c cs Hc Hcs IH]; intros s.
  - reflexivity.
  - cbn [fmap list_fmap concat onMessage_frames]. cbn zeta in *.
    assert (Hm : frame c ++ concat (frame <$> cs)
                 = encodeInt (Z.of_nat (length c)) 3 ++ c
                     ++ concat (frame <$> cs))
      by (unfold frame; by rewrite <- app_assoc).
    rewrite Hm. clear Hm.
    rewrite onMessage_loop_step.
    2: { intros E. apply (f_equal length) in E.
         rewrite length_app, length_prefix in E. cbn in E. lia. }
    destruct (frame_split c (concat (frame <$> cs)) Hc) as (-> & -> & ->).
    unfold bind. destruct (onMessage_frame c s) as [[[]|e] s']; [|done].
    apply IH.
Qed.

Lemma onMessage_as_frames ciphertexts isBinary s :
  _serverHelloDeferred (conn s) = None ->
  Forall (fun c => Z.of_nat (length c) < 2 ^ 24) ciphertexts ->
  onMessage (concat (frame <$> ciphertexts)) isBinary s
  = onMessage_frames ciphertexts s.
Proof.
  intros Hsh Hall. unfold onMessage, bind, get. cbn. rewrite Hsh.
  by apply onMessage_loop_frames.
Qed.

(** X2.  Frame splitting: a binary message made of any number of
    length-prefixed ciphertexts is processed as those ciphertexts, one
    after the other in their order, each by the loop body. *)
Theorem onMessage_splits_frames ciphertexts isBinary s :
  _serverHelloDeferred (conn s) = None ->
  Forall (fun c => Z.of_nat (length c) < 2 ^ 24) ciphertexts ->
  onMessage (concat (frame <$> ciphertexts)) isBinary s
  = onMessage_frames ciphertexts s.
Proof.
  intros Hsh Hall. unfold onMessage, bind, get. cbn. rewrite Hsh.
  by apply onMessage_loop_frames.
Qed.

(** X3.  A ciphertext the receive cipher rejects: the exception is
    recorded as the connection's failure and a close with code 1000 is
    sent; no node is dispatched and nothing is raised.  The receive
    cipher stays installed when the authentication is done, and both
    ciphers are cleared when it is pending. *)
Theorem onMessage_frame_decrypt_failure c k k' e s :
  _recvCipher (conn s) = Some k ->
  decrypt_with_ad k [] c = (Raise e, k') ->
  exists s',
    onMessage_frame c s = (Ok tt, s') /\
    _failure (conn s') = Some e /\
    wire (world s') = wire (world s) ++ [SendClose 1000] /\
    received (world s') = received (world s) /\
    events (world s') = events (world s) /\
    (authDeferred (factory s) = None ->
     _recvCipher (conn s') = Some k' /\
     _sendCipher (conn s') = _sendCipher (conn s)) /\
    (is_Some (authDeferred (factory s)) ->
     _recvCipher (conn s') = None /\ _sendCipher (conn s') = None).
Proof.
  intros Hk Hd. unfold onMessage_frame, bind, get. cbn.
  rewrite Hk, Hd. cbn.
  unfold _handleFailure, _authDone, sendClose, bind, get, modify, ret. cbn.
  destruct (authDeferred (factory s)) eqn:Ea; cbn;
    eexists; (split; [reflexivity|]); cbn;
    repeat (split; [reflexivity|]); split.
  - intros [=].
  - intros _. split; reflexivity.
  - intros _. split; reflexivity.
  - intros [? [=]].
Qed.

(** X4.  The end-of-stream sentinel is tolerated: when the node reader
    raises StreamEndError on an uncompressed plaintext, the frame only
    advances the receive cipher; no node is dispatched and no failure
    recorded. *)
Theorem onMessage_frame_stream_end c k k' flag rest s :
  _recvCipher (conn s) = Some k ->
  decrypt_with_ad k [] c = (Ok (flag :: rest), k') ->
  Z.land (byte_val flag) FLAG_COMPRESSED = 0 ->
  WABinaryReader_readNode rest = Raise StreamEndError ->
  onMessage_frame c s = (Ok tt, set_conn (with_recvCipher (Some k')) s).
Proof.
  intros Hk Hd Hflag Hr. unfold onMessage_frame, bind, get, lift. cbn.
  rewrite Hk, Hd. cbn. unfold readFrame. rewrite Hflag. cbn.
  rewrite Hr. reflexivity.
Qed.

(** X5.  Any other exception of the decoding leaves [onMessage]: a
    plaintext that is empty raises IndexError, an error of the node
    reader is raised as it is.  The receive cipher has advanced, the
    frames that follow in the message are not processed, and the
    exception is not recorded as the connection's failure. *)
Theorem onMessage_decoding_error c k k' p e ciphertexts isBinary s :
  _serverHelloDeferred (conn s) = None ->
  Forall (fun c => Z.of_nat (length c) < 2 ^ 24) (c :: ciphertexts) ->
  _recvCipher (conn s) = Some k ->
  decrypt_with_ad k [] c = (Ok p, k') ->
  (p = [] /\ e = IndexError "index out of range"
   \/ exists flag rest,
        p = flag :: rest /\
        Z.land (byte_val flag) FLAG_COMPRESSED = 0 /\
        WABinaryReader_readNode rest = Raise e /\ e <> StreamEndError) ->
  onMessage (concat (frame <$> c :: ciphertexts)) isBinary s
  = (Raise e, set_conn (with_recvCipher (Some k')) s).
Proof.
  intros Hsh Hall Hk Hd Hp.
  rewrite onMessage_as_frames by done.
  cbn [onMessage_frames]. unfold bind.
  assert (Hr : readFrame p = Raise e).
  { destruct Hp as [[-> ->]|(flag & rest & -> & Hflag & Hr & Hne)].
    - reflexivity.
    - unfold readFrame. rewrite Hflag. cbn. rewrite Hr.
      by destruct e. }
  unfold onMessage_frame, bind, get, lift. cbn.
  rewrite Hk, Hd. cbn. rewrite Hr. reflexivity.
Qed.

(** ** Outbound nodes *)

Lemma sendMessageNode_run node data k k' ct s :
  WABinaryWriter_getData node = Ok data ->
  _sendCipher (conn s) = Some k ->
  encrypt_with_ad k [] (x00 :: data) = (Ok ct, k') ->
  sendMessageNode node s
  = (Ok tt,
     set_world (fun w => with_wire (wire w ++ [SendMessage (frame ct) true]) w)
               (set_conn (with_sendCipher (Some k')) s)).
Proof.
  intros Hw Hk He.
  unfold sendMessageNode, sendMessage, bind, get, lift, modify. cbn.
  rewrite Hw. cbn. rewrite Hk. cbn. rewrite He. reflexivity.
Qed.

(** X6.  With a send cipher, [sendMessageNode] advances it and writes
    one binary message: the 3-byte big-endian length of the ciphertext
    and the ciphertext, no prologue.  Nothing else changes.  The
    plaintext sealed is the flag byte 0 and the encoded node. *)
Theorem sendMessageNode_sends node data k k' ct s :
  WABinaryWriter_getData node = Ok data ->
  _sendCipher (conn s) = Some k ->
  encrypt_with_ad k [] (x00 :: data) = (Ok ct, k') ->
  sendMessageNode node s
  = (Ok tt,
     set_world (fun w => with_wire (wire w ++ [SendMessage (frame ct) true]) w)
               (set_conn (with_sendCipher (Some k')) s)) /\
  (Z.of_nat (length ct) < 2 ^ 24 ->
   decodeInt (slice 0 3 (frame ct)) 3 = Z.of_nat (length ct) /\
   slice_from 3 (frame ct) = ct).
Proof.
  intros Hw Hk He. split.
  - by apply (sendMessageNode_run node data k k' ct s).
  - intros Hlen.
    destruct (frame_split ct [] Hlen) as (H1 & H2 & H3).
    rewrite app_nil_r in *. fold (frame ct) in *.
    split; [exact H1|].
    unfold slice_from, frame. rewrite drop_app_length'; [done|].
    by rewrite length_prefix.
Qed.

(** X7.  Round trip of a node between two connections: what
    [sendMessageNode] writes on one, [onMessage] on the other, whose
    receive cipher opens it, dispatches as the same node. *)
Theorem send_receive_roundtrip node data k k' ct kr kr' s r isBinary :
  WABinaryWriter_getData node = Ok data ->
  _sendCipher (conn s) = Some k ->
  encrypt_with_ad k [] (x00 :: data) = (Ok ct, k') ->
  Z.of_nat (length ct) < 2 ^ 24 ->
  _serverHelloDeferred (conn r) = None ->
  _recvCipher (conn r) = Some kr ->
  decrypt_with_ad kr [] ct = (Ok (x00 :: data), kr') ->
  WABinaryReader_readNode data = Ok node ->
  exists payload,
    wire (world (sendMessageNode node s).2)
      = wire (world s) ++ [SendMessage payload true] /\
    onMessage payload isBinary r
    = messageNodeReceived node (set_conn (with_recvCipher (Some kr')) r).
Proof.
  intros Hw Hk He Hlen Hsh Hkr Hd Hr.
  exists (frame ct). split.
  - by rewrite (sendMessageNode_run node data k k' ct s Hw Hk He).
  - pose proof (onMessage_as_frames [ct] isBinary r Hsh) as Hs.
    cbn [fmap list_fmap concat] in Hs. rewrite app_nil_r in Hs.
    rewrite Hs by (constructor; [done|constructor]).
    cbn [onMessage_frames]. unfold bind.
    rewrite (onMessage_frame_node ct (x00 :: data) node kr kr' r Hkr Hd).
    + by destruct (messageNodeReceived_ok node
                     (set_conn (with_recvCipher (Some kr')) r)) as (r' & ->).
    + unfold readFrame.
      change (Z.land (byte_val x00) FLAG_COMPRESSED) with 0.
      cbn. by rewrite Hr.
Qed.

Lemma request_run node id data k k' ct s :
  Node_getitem node "id" = Ok id ->
  WABinaryWriter_getData node = Ok data ->
  _sendCipher (conn s) = Some k ->
  encrypt_with_ad k [] (x00 :: data) = (Ok ct, k') ->
  exists s',
    request node s = (Ok (length (deferreds (world s))), s') /\
    deferreds (world s') = deferreds (world s) ++ [Pending] /\
    _pendingRequest (conn s')
      = <[id := length (deferreds (world s))]> (_pendingRequest (conn s)) /\
    wire (world s') = wire (world s) ++ [SendMessage (frame ct) true].
Proof.
  intros Hid Hw Hk He. unfold request, bind, lift. cbn. rewrite Hid. cbn.
  match goal with |- context [sendMessageNode node ?st] =>
    rewrite (sendMessageNode_run node data k k' ct st Hw Hk He) end.
  cbn. eexists. split; [reflexivity|]. cbn. repeat split.
Qed.

(** X8.  A request on a connection whose send cipher accepts the node:
    the Deferred returned is a new one, pending, stored in the table
    under the node's id, and the node is written as one frame. *)
Theorem request_sends node id data k k' ct s :
  Node_getitem node "id" = Ok id ->
  WABinaryWriter_getData node = Ok data ->
  _sendCipher (conn s) = Some k ->
  encrypt_with_ad k [] (x00 :: data) = (Ok ct, k') ->
  let d := length (deferreds (world s)) in
  exists s',
    request node s = (Ok d, s') /\
    deferreds (world s) !! d = None /\
    deferreds (world s') = deferreds (world s) ++ [Pending] /\
    _pendingRequest (conn s') = <[id := d]> (_pendingRequest (conn s)) /\
    wire (world s') = wire (world s) ++ [SendMessage (frame ct) true] /\
    _sendCipher (conn s') = Some k' /\
    factory s' = factory s.
Proof.
  intros Hid Hw Hk He d. unfold request, bind, lift. cbn. rewrite Hid. cbn.
  match goal with |- context [sendMessageNode node ?st] =>
    rewrite (sendMessageNode_run node data k k' ct st Hw Hk He) end.
  cbn. eexists. split; [reflexivity|]. cbn.
  split; [by apply lookup_ge_None_2|]. repeat split.
Qed.

(** What [_generateMessageId] can change: the counter, the prefix and
    the number of draws. *)
Lemma generateMessageId_frame s :
  let s' := (_generateMessageId s).2 in
  with_messageTagCounter (_messageTagCounter (conn s))
    (with_messageTagPrefix (_messageTagPrefix (conn s)) (conn s')) = conn s /\
  factory s' = factory s /\
  with_draws (draws (world s)) (world s') = world s.
Proof.
  destruct s as [c fa [ds wi ev re dr t]]. destruct c.
  unfold _generateMessageId, random, bind, get, modify, ret. cbn.
  destruct _messageTagPrefix0; cbn;
    destruct (_messageTagCounter0 + 1 =? 99)%Z; cbn; done.
Qed.

(** X9.  One round of the keep-alive loop on an authenticated
    connection: the ping is an [iq] node whose id is the next message
    id, it is written as one frame, and its Deferred, new and pending,
    is in the table under that id. *)
Theorem keepAlive_loop_pings data k k' ct s :
  tag_wf s ->
  let id := messageTag_of (prefix_in_use s) (_messageTagCounter (conn s) + 1) in
  let node :=
    mkNode "iq"
      (<["id" := id]> (<["to" := "@s.whatsapp.net"]>
         (<["type" := "get"]> (<["xmlns" := "w:p"]> ∅))))
      (CNode (mkNode "ping" ∅ CNone)) in
  WABinaryWriter_getData node = Ok data ->
  _sendCipher (conn s) = Some k ->
  encrypt_with_ad k [] (x00 :: data) = (Ok ct, k') ->
  let d := length (deferreds (world s)) in
  exists s',
    keepAlive_loop s = (Ok d, s') /\
    _pendingRequest (conn s') = <[id := d]> (_pendingRequest (conn s)) /\
    deferreds (world s') = deferreds (world s) ++ [Pending] /\
    wire (world s') = wire (world s) ++ [SendMessage (frame ct) true].
Proof.
  intros Hwf id node Hw Hk He d.
  destruct (generateMessageId_step s Hwf) as (s1 & E1 & _).
  pose proof (generateMessageId_frame s) as (Hc & _ & Hwo).
  rewrite E1 in Hc, Hwo. cbn [snd] in Hc, Hwo.
  unfold keepAlive_loop, bind. rewrite E1. fold id. fold node.
  assert (Hk1 : _sendCipher (conn s1) = Some k).
  { apply (f_equal _sendCipher) in Hc. cbn in Hc. congruence. }
  destruct (request_run node id data k k' ct s1) as (s' & E & Hd & Hp & Hwi);
    [by unfold Node_getitem; cbn; rewrite lookup_insert_eq|done..|].
  assert (Hds : deferreds (world s1) = deferreds (world s))
    by (apply (f_equal deferreds) in Hwo; exact Hwo).
  assert (Hws : wire (world s1) = wire (world s))
    by (apply (f_equal wire) in Hwo; exact Hwo).
  assert (Hps : _pendingRequest (conn s1) = _pendingRequest (conn s))
    by (apply (f_equal _pendingRequest) in Hc; exact Hc).
  rewrite Hds in E, Hd, Hp. rewrite Hps in Hp. rewrite Hws in Hwi.
  exists s'. by repeat split.
Qed.

(** X10.  [sendReadReceipt] never raises: whatever goes wrong while
    the receipt is built or sent comes back as a failed Deferred.
    Without a send cipher it fails and changes nothing; when the
    message has its attributes and the cipher accepts the receipt, it
    succeeds and one frame is written. *)
Theorem sendReadReceipt_returns message s :
  (exists r s', sendReadReceipt message s = (Ok r, s')) /\
  (_sendCipher (conn s) = None ->
   exists e, sendReadReceipt message s = (Ok (fail e), s)) /\
  (forall to id data k k' ct,
     Message_getitem message "from" = Ok to ->
     Message_getitem message "id" = Ok id ->
     WABinaryWriter_getData
       (mkNode "receipt"
          (<["to" := to]> (<["type" := "read"]>
             (<["id" := id]> (<["t" := str (now (world s))]> ∅))))
          CNone) = Ok data ->
     _sendCipher (conn s) = Some k ->
     encrypt_with_ad k [] (x00 :: data) = (Ok ct, k') ->
     exists s',
       sendReadReceipt message s = (Ok succeed_None, s') /\
       wire (world s') = wire (world s) ++ [SendMessage (frame ct) true]).
Proof.
  split; [|split].
  - unfold sendReadReceipt, try_except.
    match goal with |- context [match ?m s with _ => _ end] =>
      destruct (m s) as [[r|e] s'] end; eauto.
  - intros Hc. unfold sendReadReceipt, try_except, bind, lift, time_time.
    destruct (Message_getitem message "from") as [to|e]; [|eauto].
    destruct (Message_getitem message "id") as [id|e]; [|eauto].
    match goal with |- context [sendMessageNode ?n s] =>
      destruct (sendMessageNode_no_cipher n s Hc) as (e & ->) end.
    eauto.
  - intros to id data k k' ct Hto Hid Hw Hk He.
    unfold sendReadReceipt, try_except, bind, lift, time_time.
    rewrite Hto, Hid.
    match goal with |- context [sendMessageNode ?n s] =>
      rewrite (sendMessageNode_run n data k k' ct s Hw Hk He) end.
    eexists. split; reflexivity.
Qed.

(** ** Dispatch *)

(** X11.  [messageNodeReceived] never raises.  A tag without handler
    drops the node and changes nothing else; what the registry or the
    handler raises is recorded as the connection's failure, without
    closing the websocket. *)
Theorem messageNodeReceived_cases node s :
  let s0 := set_world (fun w => with_received (received w ++ [node]) w) s in
  (exists s', messageNodeReceived node s = (Ok tt, s')) /\
  (createNodeHander (tag node) = Ok None ->
   messageNodeReceived node s = (Ok tt, s0)) /\
  (forall e, createNodeHander (tag node) = Raise e ->
     messageNodeReceived node s = _handleFailure e false s0) /\
  (forall h e s1,
     createNodeHander (tag node) = Ok (Some h) ->
     handleNode h node s0 = (Raise e, s1) ->
     messageNodeReceived node s = _handleFailure e false s1 /\
     _failure (conn (messageNodeReceived node s).2) = Some e /\
     wire (world (messageNodeReceived node s).2) = wire (world s1)).
Proof.
  cbn zeta. split; [apply messageNodeReceived_ok|].
  unfold messageNodeReceived, bind, modify, try_except, lift. cbn.
  split; [|split].
  - intros ->. reflexivity.
  - intros e ->. cbn.
    destruct (_handleFailure_default e
      (set_world (fun w => with_received (received w ++ [node]) w) s))
      as (s' & -> & _). reflexivity.
  - intros h e s1 -> Hh. cbn. rewrite Hh.
    destruct (_handleFailure_default e s1) as (s' & E & Hf & Hw & _).
    rewrite E. cbn. by rewrite Hw.
Qed.

(** X12.  A [failure] node dispatched while the authentication is
    pending: the handler's reference to the unbound name [attrs]
    raises NameError, which is what gets recorded; both ciphers are
    cleared, and the close that follows fails the authentication future
    with that NameError, without a close event. *)
Theorem failure_node_before_auth node d s :
  createNodeHander (tag node) = Ok (Some FailureHandler) ->
  auth_pending s d ->
  exists s1 s2,
    messageNodeReceived node s = (Ok tt, s1) /\
    _failure (conn s1) = Some (NameError "attrs") /\
    _sendCipher (conn s1) = None /\ _recvCipher (conn s1) = None /\
    wire (world s1) = wire (world s) /\
    onClose s1 = (Ok tt, s2) /\
    deferreds (world s2) !! d = Some (Errbacked (NameError "attrs")) /\
    events (world s2) = events (world s).
Proof.
  intros Hh [Ha Hd].
  set (s0 := set_world (fun w => with_received (received w ++ [node]) w) s).
  destruct (_handleFailure_default (NameError "attrs") s0)
    as (s1 & E1 & Hf & Hw & Hfa & Hc).
  assert (Hrun : messageNodeReceived node s = (Ok tt, s1)).
  { unfold messageNodeReceived, bind, modify, try_except, lift. cbn.
    rewrite Hh. cbn.
    unfold FailureHandler_handleNode, _authDone, bind, get, raise, ret. cbn.
    rewrite Ha. cbn. exact E1. }
  destruct Hc as [Hsc Hrc]; [by subst s0; cbn; rewrite Ha|].
  destruct (onClose_authFailure s1 (NameError "attrs") d Hf)
    as (s2 & E2 & Hd2 & _ & _ & Hev & _).
  { split; [by rewrite Hfa | by rewrite Hw]. }
  exists s1, s2. repeat split; try done.
  - by rewrite Hw.
  - by rewrite Hev, Hw.
Qed.

(** ** The handshake *)

Lemma buildClientPayload_authState s s' :
  authState (conn s) = authState (conn s') ->
  (_buildClientPayloadHandshake s).1 = (_buildClientPayloadHandshake s').1.
Proof.
  intros E.
  unfold _buildClientPayloadHandshake, getAuthState, bind, get, lift, raise, ret.
  cbn. rewrite E. repeat (case_split; cbn); reflexivity.
Qed.

(** X13.  A handshake that succeeds.  The ServerHello arrives while
    the connection waits for it, its certificate passes the four
    checks, and the Noise state accepts both messages.  Then the two
    ciphers are those the Noise state returned, ClientFinish is written
    as one frame without prologue, with the first 48 bytes of the
    buffer as [static] and the rest as [payload], and the keep-alive
    loop runs every 20 seconds.  No failure is recorded, and the
    authentication future is not fired by the handshake. *)
Theorem handshake_succeeds message isBinary s d hm sh hs hs' buf cert det
    p hs'' out sendCipher recvCipher :
  _serverHelloDeferred (conn s) = Some d ->
  deferreds (world s) !! d = Some Pending ->
  HandshakeMessage_ParseFromString (slice_from 3 message) = Ok hm ->
  serverHello hm = Some sh ->
  _noiseHandshakeState (conn s) = Some hs ->
  read_message hs (sh_ephemeral sh ++ sh_static sh ++ sh_payload sh)
    = (Ok buf, hs') ->
  NoiseCertificate_ParseFromString buf = Ok cert ->
  Details_ParseFromString (cert_details cert) = Ok det ->
  issuer det = CERTIFICATE_ISSUER ->
  verifySignature WHATSAPP_LONG_TERM (cert_details cert) (cert_signature cert)
    = Ok true ->
  rs_data hs' = Ok (key det) ->
  (forall e, expires det = Some e -> now (world s) <= e) ->
  (_buildClientPayloadHandshake s).1 = Ok p ->
  write_message hs' (ClientPayload_SerializeToString p)
    = (Ok (out, Some (sendCipher, recvCipher)), hs'') ->
  let clientFinishMessage :=
    HandshakeMessage_SerializeToString
      {| clientHello := None; serverHello := None;
         clientFinish := Some {| cf_static := slice 0 48 out;
                                 cf_payload := slice_from 48 out |} |} in
  exists s',
    onMessage message isBinary s = (Ok tt, s') /\
    _sendCipher (conn s') = Some sendCipher /\
    _recvCipher (conn s') = Some recvCipher /\
    _serverHelloDeferred (conn s') = None /\
    _keepAliveLoop (conn s') = Some {| running := true; interval := 20 |} /\
    _failure (conn s') = _failure (conn s) /\
    wire (world s')
      = wire (world s) ++ [SendMessage (frame clientFinishMessage) true] /\
    deferreds (world s') = <[d := Called (VServerHello sh)]> (deferreds (world s)) /\
    factory s' = factory s /\
    events (world s') = events (world s).
Proof.
  intros Hd Hp Hparse Hsh Hhs Hread Hcert Hdet Hiss Hsig Hrs Hexp Hbuild Hwrite.
  cbn zeta.
  unfold onMessage, bind, get, lift. cbn. rewrite Hd. cbn.
  rewrite Hparse. cbn. rewrite Hsh.
  unfold callback, Deferred_fire. cbn. rewrite Hp. cbn.
  unfold _doHandshake_errback, try_except, _doHandshake_resume, bind.
  set (s1 := set_world _ _).
  assert (Hv : _doHandshake_verify sh s1
               = (Ok tt, set_conn (with_noiseHandshakeState (Some hs')) s1)).
  { unfold _doHandshake_verify, getHandshakeState, time_time, bind, get, lift,
      raise, modify, ret.
    cbn. rewrite Hhs. cbn. rewrite Hread. cbn. rewrite Hcert. cbn.
    rewrite Hdet. cbn. rewrite Hiss, String.eqb_refl. cbn.
    rewrite Hsig. cbn. rewrite Hrs. cbn.
    rewrite bool_decide_eq_true_2 by reflexivity. cbn.
    destruct (expires det) as [e|] eqn:Ee; cbn; [|done].
    by rewrite (proj2 (Z.ltb_ge e (now (world s))) (Hexp e eq_refl)). }
  rewrite Hv.
  set (s2 := set_conn (with_noiseHandshakeState (Some hs')) s1).
  assert (Hb : _buildClientPayloadHandshake s2 = (Ok p, s2)).
  { pose proof (_buildClientPayloadHandshake_state s2) as Hst.
    pose proof (buildClientPayload_authState s2 s eq_refl) as Hfst.
    rewrite Hbuild in Hfst.
    destruct (_buildClientPayloadHandshake s2) as [r st]. cbn in *. congruence. }
  unfold _doHandshake_finish, bind. rewrite Hb.
  unfold getHandshakeState, _startKeepAliveLoop, sendMessage, bind, get, lift,
    modify, ret.
  cbn. rewrite Hwrite. cbn.
  eexists. split; [reflexivity|]. cbn. repeat split.
Qed.

(** X14.  The order of the certificate checks and their errors.  A
    certificate from another issuer is refused with "issued by unknown
    source" and the issuer's name, before the signature is looked at;
    a signature that does not verify with "Invalid signature"; a key
    that is not the server's static key with "does not match"; and a
    certificate without [expires] that passes the three is accepted
    whatever the time.  A refused certificate sends nothing. *)
Theorem certificate_checks sh s hs hs' buf cert det :
  _noiseHandshakeState (conn s) = Some hs ->
  read_message hs (sh_ephemeral sh ++ sh_static sh ++ sh_payload sh)
    = (Ok buf, hs') ->
  NoiseCertificate_ParseFromString buf = Ok cert ->
  Details_ParseFromString (cert_details cert) = Ok det ->
  let s1 := set_conn (with_noiseHandshakeState (Some hs')) s in
  let signature :=
    verifySignature WHATSAPP_LONG_TERM (cert_details cert)
                    (cert_signature cert) in
  (issuer det <> CERTIFICATE_ISSUER ->
   _doHandshake_verify sh s
   = (Raise (AuthenticationFailedError
               ("Noise certificate issued by unknown source: " +:+ issuer det)),
      s1)) /\
  (issuer det = CERTIFICATE_ISSUER -> signature = Ok false ->
   _doHandshake_verify sh s
   = (Raise (AuthenticationFailedError
               "Invalid signature on noise ceritificate"), s1)) /\
  (forall rs,
     issuer det = CERTIFICATE_ISSUER -> signature = Ok true ->
     rs_data hs' = Ok rs -> key det <> rs ->
     _doHandshake_verify sh s
     = (Raise (AuthenticationFailedError
                 "Noise certificate key does not match proposed server static key"),
        s1)) /\
  (issuer det = CERTIFICATE_ISSUER -> signature = Ok true ->
   rs_data hs' = Ok (key det) -> expires det = None ->
   _doHandshake_verify sh s = (Ok tt, s1)) /\
  (forall e, (_doHandshake_verify sh s).1 = Raise e ->
     exists s2,
       _doHandshake_errback (_doHandshake_resume sh) s = (Ok tt, s2) /\
       _failure (conn s2) = Some e /\
       wire (world s2) = wire (world s)).
Proof.
  intros Hhs Hread Hcert Hdet. cbn zeta.
  assert (Hrun : forall r,
    (let check1 := negb (String.eqb (issuer det) CERTIFICATE_ISSUER) in
     if check1 then
       Raise (AuthenticationFailedError
                ("Noise certificate issued by unknown source: " +:+ issuer det))
     else match verifySignature WHATSAPP_LONG_TERM (cert_details cert)
                                (cert_signature cert) with
          | Raise e => Raise e
          | Ok valid =>
              if negb valid then
                Raise (AuthenticationFailedError
                         "Invalid signature on noise ceritificate")
              else match rs_data hs' with
                   | Raise e => Raise e
                   | Ok rs =>
                       if negb (bool_decide (key det = rs)) then
                         Raise (AuthenticationFailedError
                                  "Noise certificate key does not match proposed server static key")
                       else match expires det with
                            | Some e =>
                                if (e <? now (world s))%Z
                                then Raise (AuthenticationFailedError
                                              "Noise certificate expired")
                                else Ok tt
                            | None => Ok tt
                            end
                   end
          end) = r ->
    _doHandshake_verify sh s
    = (r, set_conn (with_noiseHandshakeState (Some hs')) s)).
  { intros r <-.
    unfold _doHandshake_verify, getHandshakeState, time_time, bind, get, lift,
      raise, modify, ret.
    cbn. rewrite Hhs. cbn. rewrite Hread. cbn. rewrite Hcert. cbn.
    rewrite Hdet. cbn.
    repeat (case_split; cbn); reflexivity. }
  split; [|split; [|split; [|split]]].
  - intros Hne. apply Hrun. cbn zeta.
    by rewrite (proj2 (String.eqb_neq _ _) Hne).
  - intros Hiss Hsig. apply Hrun. cbn zeta.
    by rewrite Hiss, String.eqb_refl, Hsig.
  - intros rs Hiss Hsig Hrs Hne. apply Hrun. cbn zeta.
    rewrite Hiss, String.eqb_refl, Hsig, Hrs. cbn.
    by rewrite bool_decide_eq_false_2.
  - intros Hiss Hsig Hrs Hexp. apply Hrun. cbn zeta.
    rewrite Hiss, String.eqb_refl, Hsig, Hrs. cbn.
    rewrite bool_decide_eq_true_2 by done. by rewrite Hexp.
  - intros e He.
    pose proof (_doHandshake_verify_frame sh s) as [_ Hw].
    destruct (_doHandshake_verify sh s) as [r s1] eqn:Ev. cbn in He, Hw.
    subst r.
    destruct (_handleFailure_default e s1) as (s2 & E2 & Hf2 & Hw2 & _).
    exists s2. split.
    + unfold _doHandshake_errback, try_except, _doHandshake_resume, bind.
      by rewrite Ev.
    + split; [exact Hf2|]. by rewrite Hw2, Hw.
Qed.

(** X15.  [authenticate] on a connection whose Noise state writes the
    first message: the connection takes a new AuthState if it has
    none, one binary message is written, the prologue followed by the
    length-prefixed ClientHello with the ephemeral key, and the
    connection waits for the ServerHello on a new pending Deferred.
    The future returned is the factory's [authDeferred]. *)
Theorem authenticate_sends_hello s ephemeral pair hs' :
  let a := default AuthState_new (authState (conn s)) in
  write_message (HandshakeState_initialize PROLOGUE (noiseKey a)) []
    = (Ok (ephemeral, pair), hs') ->
  let clientHelloMsg :=
    HandshakeMessage_SerializeToString
      {| clientHello := Some {| ch_ephemeral := ephemeral |};
         serverHello := None; clientFinish := None |} in
  exists s',
    authenticate s = (Ok (authDeferred (factory s)), s') /\
    authState (conn s') = Some a /\
    _noiseHandshakeState (conn s') = Some hs' /\
    wire (world s')
      = wire (world s) ++ [SendMessage (PROLOGUE ++ frame clientHelloMsg) true] /\
    _serverHelloDeferred (conn s') = Some (length (deferreds (world s))) /\
    deferreds (world s') = deferreds (world s) ++ [Pending] /\
    _failure (conn s') = _failure (conn s) /\
    factory s' = factory s.
Proof.
  cbn zeta. intros Hwrite.
  unfold authenticate, _doHandshake_errback, try_except, _waitServerHello,
    _sendClientHello, Deferred_new, sendMessage, bind, get, lift, modify, ret.
  cbn.
  destruct (authState (conn s)) as [a|] eqn:Ea; cbn in *;
    rewrite Hwrite; cbn;
    (eexists; split; [reflexivity|]); cbn; repeat split.
Qed.

(** ** The factory's Deferreds *)

Lemma fired_kept_refl s : fired_kept s s.
Proof. by intros d r ? ?. Qed.


Lemma fired_kept_insert s d r :
  deferreds (world s) !! d = Some Pending ->
  fired_kept s (set_world (with_deferreds (<[d := r]> (deferreds (world s)))) s).
Proof.
  intros Hd d' r' Hd' Hr'. cbn.
  rewrite list_lookup_insert_ne; [done|].
  intros <-. rewrite Hd in Hd'. congruence.
Qed.

Lemma factory_wf_fire_ready s d r :
  factory_wf s ->
  readyDeferred (factory s) = Some d ->
  factory_wf
    (set_world (with_deferreds (<[d := r]> (deferreds (world s))))
       (set_factory (with_readyDeferred None) s)).
Proof.
  intros (Hr & Ha & Hne) Hd. split; [|split]; cbn.
  - intros ? [=].
  - intros d' Hd'. rewrite list_lookup_insert_ne; [by apply Ha|].
    intros <-. by apply (Hne d).
  - intros ? [=].
Qed.

Lemma factory_wf_fire_auth s d r :
  factory_wf s ->
  authDeferred (factory s) = Some d ->
  factory_wf
    (set_world (with_deferreds (<[d := r]> (deferreds (world s))))
       (set_factory (with_authDeferred None) s)).
Proof.
  intros (Hr & Ha & Hne) Hd. split; [|split]; cbn.
  - intros d' Hd'. rewrite list_lookup_insert_ne; [by apply Hr|].
    intros <-. by apply (Hne d).
  - intros ? [=].
  - intros ? _ [=].
Qed.

Lemma Factory_call_wf c s :
  factory_wf s ->
  exists s',
    Factory_call c s = (Ok tt, s') /\
    factory_wf s' /\ fired_kept s s' /\
    conn s' = conn s /\
    events (world s') = events (world s) /\
    wire (world s') = wire (world s) /\
    length (deferreds (world s')) = length (deferreds (world s)).
Proof.
  intros Hwf. pose proof Hwf as (Hr & Ha & Hne).
  assert (Hnone : exists s',
    (Ok tt, s) = (Ok tt, s') /\ factory_wf s' /\ fired_kept s s' /\
    conn s' = conn s /\ events (world s') = events (world s) /\
    wire (world s') = wire (world s) /\
    length (deferreds (world s')) = length (deferreds (world s))).
  { exists s. split; [done|]. split; [exact Hwf|].
    split; [apply fired_kept_refl|]. done. }
  destruct c; cbn;
    unfold _onOpen, _onClose, authFailure, authSuccess, clientConnectionFailed,
      callback, errback, Deferred_fire, bind, get, modify, ret; cbn.
  1,2,5: destruct (readyDeferred (factory s)) as [d|] eqn:Ed; cbn;
    [ rewrite (Hr d eq_refl); cbn; eexists; split; [reflexivity|];
      split; [by apply (factory_wf_fire_ready s d)|];
      split; [by apply (fired_kept_insert s d), Hr|];
      cbn; by rewrite length_insert
    | exact Hnone ].
  all: destruct (authDeferred (factory s)) as [d|] eqn:Ed; cbn;
    [ rewrite (Ha d eq_refl); cbn; eexists; split; [reflexivity|];
      split; [by apply (factory_wf_fire_auth s d)|];
      split; [by apply (fired_kept_insert s d), Ha|];
      cbn; by rewrite length_insert
    | exact Hnone ].
Qed.



(** Firing an event on a well-set-up factory. *)
Lemma fire_wf e s :
  factory_wf s ->
  exists s',
    fire e s = (Ok tt, s') /\
    factory_wf s' /\ fired_kept s s' /\
    conn s' = conn s /\
    events (world s') = events (world s) ++ [e] /\
    wire (world s') = wire (world s).
Proof.
  intros Hwf.
  set (s0 := set_world (fun w => with_events (events w ++ [e]) w) s).
  assert (Hwf0 : factory_wf s0) by exact Hwf.
  destruct (Factory_call_wf
              match e with
              | EvOpen => call_onOpen
              | EvClose reason => call_onClose (Some reason)
              end s0 Hwf0) as (s' & E & Hwf' & Hk & Hc & Hev & Hw & _).
  exists s'. split.
  { unfold fire, bind, modify, try_except. cbn beta iota. fold s0.
    destruct e; unfold Factory_call in E; by rewrite E. }
  repeat split; try done. apply Hwf'. apply Hwf'. apply Hwf'.
Qed.

#[local] Arguments authFailure : simpl never.

(** X17.  [onClose] on a well-set-up factory never raises, and it
    consumes what it reports: afterwards no failure is recorded and a
    keep-alive loop that ran is gone, so a second close is reported as
    a clean close. *)
Theorem onClose_consumes_failure s :
  factory_wf s ->
  exists s1 s2,
    onClose s = (Ok tt, s1) /\
    factory_wf s1 /\
    _failure (conn s1) = None /\
    (forall l, _keepAliveLoop (conn s) = Some l -> running l = true ->
               _keepAliveLoop (conn s1) = None) /\
    wire (world s1) = wire (world s) /\
    onClose s1 = (Ok tt, s2) /\
    events (world s2)
      = events (world s1)
          ++ [EvClose (ConnectionClosedError None None
                         "Connection Closed Cleanly")].
Proof.
  intros Hwf.
  assert (Hclean : forall s, factory_wf s -> _failure (conn s) = None ->
    exists s2, onClose s = (Ok tt, s2) /\ factory_wf s2 /\
      _failure (conn s2) = None /\
      (forall l, _keepAliveLoop (conn s) = Some l -> running l = true ->
                 _keepAliveLoop (conn s2) = None) /\
      wire (world s2) = wire (world s) /\
      events (world s2)
        = events (world s)
            ++ [EvClose (ConnectionClosedError None None
                           "Connection Closed Cleanly")]).
  { clear s Hwf. intros s Hwf Hf.
    unfold onClose, bind, get. cbn.
    destruct (_keepAliveLoop (conn s)) as [[[] iv]|] eqn:Ek; cbn;
      rewrite Hf; cbn;
      match goal with |- context [fire ?e ?st] =>
        destruct (fire_wf e st Hwf) as (s2 & -> & Hwf2 & _ & Hc & Hev & Hw) end;
      exists s2; (split; [reflexivity|]); (split; [exact Hwf2|]);
      rewrite Hc; cbn; repeat split; try done;
      try (intros l [= <-]; done). }
  destruct (_failure (conn s)) as [f|] eqn:Ef.
  2: { destruct (Hclean s Hwf Ef) as (s1 & E1 & Hwf1 & Hf1 & Hk1 & Hw1 & _).
       destruct (Hclean s1 Hwf1 Hf1) as (s2 & E2 & _ & _ & _ & _ & Hev2).
       exists s1, s2.
       exact (conj E1 (conj Hwf1 (conj Hf1 (conj Hk1 (conj Hw1
                (conj E2 Hev2)))))). }
  assert (Hrun : exists s1, onClose s = (Ok tt, s1) /\ factory_wf s1 /\
    _failure (conn s1) = None /\
    (forall l, _keepAliveLoop (conn s) = Some l -> running l = true ->
               _keepAliveLoop (conn s1) = None) /\
    wire (world s1) = wire (world s)).
  { unfold onClose, bind, get. cbn.
    destruct (_keepAliveLoop (conn s)) as [[[] iv]|] eqn:Ek; cbn;
      rewrite Ef; cbn;
      (destruct (authDeferred (factory s)) as [d|] eqn:Ea; cbn;
       [ match goal with |- context [authFailure f ?st] =>
           destruct (Factory_call_wf (call_authFailure f) st Hwf)
             as (s1 & E & Hwf1 & _ & Hc & _ & Hw & _) end;
         cbn in E; rewrite E; exists s1
       | match goal with |- context [fire ?e ?st] =>
           destruct (fire_wf e st Hwf) as (s1 & -> & Hwf1 & _ & Hc & _ & Hw) end;
         exists s1 ];
       (split; [reflexivity|]); (split; [exact Hwf1|]);
       rewrite Hc; cbn; repeat split; try done;
       try (intros l [= <-]; done)). }
  destruct Hrun as (s1 & E1 & Hwf1 & Hf1 & Hk1 & Hw1).
  destruct (Hclean s1 Hwf1 Hf1) as (s2 & E2 & _ & _ & _ & _ & Hev2).
  exists s1, s2.
  exact (conj E1 (conj Hwf1 (conj Hf1 (conj Hk1 (conj Hw1 (conj E2 Hev2)))))).
Qed.

(** ** Restart and reconnection *)

(** X18.  Pairing to resume.  [_restart] moves the connection's
    AuthState into the factory and clears both ciphers; the loss of
    the connection then makes the factory connect once more, and the
    protocol it builds starts afresh with that AuthState, so that its
    client payload is the one of the AuthState.  The saved state is
    used up by that: a further loss of connection does not reconnect,
    nor does one without a restart before it. *)
Theorem restart_reconnects_once s a :
  authState (conn s) = Some a ->
  exists s1 s2,
    _restart s = (Ok tt, s1) /\
    authState (conn s1) = None /\
    _sendCipher (conn s1) = None /\ _recvCipher (conn s1) = None /\
    _authState (factory s1) = Some a /\
    clientConnectionLost s1 = (Ok true, s2) /\
    conn s2 = with_authState (Some a) Protocol_init /\
    _authState (factory s2) = None /\
    authDeferred (factory s2) = authDeferred (factory s) /\
    world s2 = world s /\
    (_buildClientPayloadHandshake s2).1 = (_buildClientPayloadHandshake s).1 /\
    clientConnectionLost s2 = (Ok false, s2) /\
    (_authState (factory s) = None -> clientConnectionLost s = (Ok false, s)).
Proof.
  intros Ha.
  unfold _restart, clientConnectionLost, Factory_buildProtocol, bind, get,
    modify, ret.
  cbn. rewrite Ha. cbn.
  eexists _, _. split; [reflexivity|]. cbn.
  repeat (split; [reflexivity|]).
  split.
  { apply buildClientPayload_authState. cbn. by rewrite Ha. }
  split; [reflexivity|].
  intros ->. reflexivity.
Qed.

(** ** Opening *)

(** X19.  [onOpen] without an AuthState only reports: the open event
    is fired, which resolves the factory's [readyDeferred] with the
    connection, and nothing is sent.  With an AuthState it fires no
    event and starts the handshake, as [authenticate] does. *)
Theorem onOpen_cases s :
  (authState (conn s) = None -> factory_wf s ->
   exists s',
     onOpen s = (Ok tt, s') /\
     events (world s') = events (world s) ++ [EvOpen] /\
     wire (world s') = wire (world s) /\
     conn s' = conn s /\
     forall d, readyDeferred (factory s) = Some d ->
       deferreds (world s') !! d = Some (Called VConnection) /\
       readyDeferred (factory s') = None) /\
  (is_Some (authState (conn s)) ->
   (onOpen s).2 = (authenticate s).2 /\
   (onOpen s).1 = Ok tt /\
   events (world (onOpen s).2) = events (world s)).
Proof.
  split.
  - intros Ha (Hr & _ & _).
    unfold onOpen, bind, get. cbn. rewrite Ha.
    unfold fire, _onOpen, callback, Deferred_fire, bind, get, modify,
      try_except, ret.
    cbn.
    destruct (readyDeferred (factory s)) as [d|] eqn:Ed; cbn.
    + rewrite (Hr d eq_refl). cbn.
      eexists. split; [reflexivity|]. cbn.
      repeat (split; [reflexivity|]).
      intros d' [= <-]. split; [|reflexivity].
      apply list_lookup_insert_eq. eapply lookup_lt_Some. by apply Hr.
    + eexists. split; [reflexivity|]. cbn.
      repeat (split; [reflexivity|]). intros ? [=].
  - intros [a Ha].
    unfold onOpen, authenticate, bind, get. cbn. rewrite Ha.
    pose proof (_sendClientHello_frame s) as [(_ & Hev & _) _].
    unfold _doHandshake_errback, try_except, _waitServerHello, Deferred_new,
      bind, modify, ret.
    destruct (_sendClientHello s) as [[[]|e] s1]; cbn in *.
    + repeat split. exact Hev.
    + destruct (_handleFailure_default e s1) as (s2 & -> & _ & Hw & _).
      cbn. repeat split. by rewrite Hw.
Qed.

(** ** All the message ids *)

Lemma at_messageTag_step d i s :
  at_messageTag d i s ->
  exists s',
    _generateMessageId s = (Ok (nth_messageTag d i), s') /\
    at_messageTag d (S i) s'.
Proof.
  assert (Hm : (i mod 99 < 99)%nat) by (apply Nat.mod_upper_bound; lia).
  assert (Hdiv : i = (99 * (i / 99) + i mod 99)%nat) by (apply Nat.div_mod_eq).
  assert (Hnext :
    (i mod 99 = 98 /\ S i mod 99 = 0 /\ S i / 99 = S (i / 99))%nat \/
    (i mod 99 < 98 /\ S i mod 99 = S (i mod 99) /\ S i / 99 = i / 99)%nat).
  { destruct (decide (i mod 99 = 98)%nat) as [E|E].
    - left. split; [done|]. split.
      + symmetry. apply (Nat.mod_unique (S i) 99 (S (i / 99)) 0); lia.
      + symmetry. apply (Nat.div_unique (S i) 99 (S (i / 99)) 0); lia.
    - right. split; [lia|]. split.
      + symmetry.
        apply (Nat.mod_unique (S i) 99 (i / 99) (S (i mod 99))); lia.
      + symmetry.
        apply (Nat.div_unique (S i) 99 (i / 99) (S (i mod 99))); lia. }
  unfold at_messageTag, nth_messageTag.
  generalize dependent (S i mod 99)%nat. intros m'.
  generalize dependent (S i / 99)%nat. intros q'.
  generalize dependent (i mod 99)%nat. intros m.
  generalize dependent (i / 99)%nat. intros q.
  intros _ _ Hnext [Hc Hp].
  destruct s as [c fa [ds wi ev re dr t]]. destruct c.
  cbn [conn world _messageTagCounter _messageTagPrefix draws] in *.
  subst _messageTagCounter0.
  unfold _generateMessageId, random, messageTag_of, bind, get, modify, ret.
  cbn [conn world _messageTagCounter _messageTagPrefix draws].
  destruct (decide (m = 0)%nat) as [E0|E0].
  - destruct Hp as [-> ->].
    destruct Hnext as [(E & _)|(Hlt & -> & ->)]; [lia|].
    cbn.
    replace (Z.of_nat m + 1 =? 99)%Z with false
      by (symmetry; apply Z.eqb_neq; lia).
    eexists. split; [reflexivity|]. cbn.
    split; [lia|].
    rewrite decide_False by lia. split; [done|lia].
  - destruct Hp as [-> ->].
    destruct Hnext as [(E & -> & ->)|(Hlt & -> & ->)]; cbn.
    + replace (Z.of_nat m + 1 =? 99)%Z with true
        by (symmetry; apply Z.eqb_eq; lia).
      eexists. split; [reflexivity|]. cbn.
      split; [done|].
      rewrite decide_True by done. split; [done|lia].
    + replace (Z.of_nat m + 1 =? 99)%Z with false
        by (symmetry; apply Z.eqb_neq; lia).
      eexists. split; [reflexivity|]. cbn.
      split; [lia|].
      rewrite decide_False by lia. split; [done|lia].
Qed.

Lemma at_messageTag_run d n i s :
  at_messageTag d i s ->
  exists s',
    generateMessageIds n s = (Ok (nth_messageTag d <$> seq i n), s') /\
    at_messageTag d (i + n) s'.
Proof.
  revert i s. induction n as [|n IH]; intros i s Hat.
  - exists s. split; [reflexivity|]. by rewrite Nat.add_0_r.
  - destruct (at_messageTag_step d i s Hat) as (s1 & E1 & Hat1).
    destruct (IH (S i) s1 Hat1) as (s' & E & Hat').
    exists s'. cbn [generateMessageIds seq fmap list_fmap]. unfold bind.
    rewrite E1, E. split; [reflexivity|].
    by replace (i + S n)%nat with (S i + n)%nat by lia.
Qed.

(** X20.  All the ids of a connection.  From the start of a prefix
    period, with [d] random numbers drawn so far, the [i]-th id (from
    0) has the prefix made of the draws [d + 2 * (i / 99)] and the next
    one, and the suffix [i mod 99 + 1]: 99 ids to a prefix, two draws
    to a prefix, whatever the number of calls. *)
Theorem generateMessageIds_all n s :
  _messageTagPrefix (conn s) = None ->
  _messageTagCounter (conn s) = 0 ->
  exists s',
    generateMessageIds n s
      = (Ok (nth_messageTag (draws (world s)) <$> seq 0 n), s') /\
    _messageTagCounter (conn s') = Z.of_nat (n mod 99) /\
    draws (world s') = (draws (world s) + 2 * ((n + 98) / 99))%nat.
Proof.
  intros Hp Hc.
  destruct (at_messageTag_run (draws (world s)) n 0 s) as (s' & E & Hc' & Hp').
  { split; [done|]. rewrite decide_True by done. split; [done|].
    cbn. lia. }
  exists s'. cbn [Nat.add] in *. split; [exact E|]. split; [exact Hc'|].
  assert (Hdiv : n = (99 * (n / 99) + n mod 99)%nat) by (apply Nat.div_mod_eq).
  assert (Hm : (n mod 99 < 99)%nat) by (apply Nat.mod_upper_bound; lia).
  destruct (decide (n mod 99 = 0)%nat) as [E0|E0].
  - destruct Hp' as [_ ->].
    rewrite <- (Nat.div_unique (n + 98) 99 (n / 99) 98); lia.
  - destruct Hp' as [_ ->].
    rewrite <- (Nat.div_unique (n + 98) 99 (S (n / 99)) (n mod 99 - 1)); lia.
Qed.

End MoreProperties.

(** * Concrete runs *)

Import Sample Runs.


Example s_auth_ciphers :
  _sendCipher (conn s_auth) = Some 0%nat /\
  _recvCipher (conn s_auth) = Some 0%nat /\
  authDeferred (factory s_auth) = None /\
  deferreds (world s_auth) !! 1%nat = Some (Called VConnection) /\
  _failure (conn s_auth) = None.
Proof. vm_compute. repeat split. Qed.

(** C1, counterexample: a request is pending when the connection
    closes; after [onClose] its slot is still in the table and its
    future is still pending. *)
Lemma onClose_pending_counterexample :
  exists d s1 s2,
    request iqA s_auth = (Ok d, s1) /\
    _pendingRequest (conn s1) !! "A" = Some d /\
    onClose s1 = (Ok tt, s2) /\
    _pendingRequest (conn s2) !! "A" = Some d /\
    deferreds (world s2) !! d = Some Pending.
Proof.
  eexists _, _, _. split; [vm_compute; reflexivity|].
  split; [vm_compute; reflexivity|].
  split; [vm_compute; reflexivity|].
  split; vm_compute; reflexivity.
Qed.

Lemma onClose_keeps_pendingRequest_witness :
  let s1 := (request iqA s_auth).2 in
  _pendingRequest (conn s1) !! "A" = Some 3%nat /\
  deferreds (world (onClose s1).2) !! 3%nat = deferreds (world s1) !! 3%nat.
Proof.
  intros s1. split; [vm_compute; reflexivity|].
  apply (proj2 (proj1 (onClose_keeps_pendingRequest s1)) "A" 3%nat).
  - vm_compute. reflexivity.
  - vm_compute. discriminate.
  - vm_compute. discriminate.
Defined.



(** C3, counterexample: after authentication the server sends
    [<failure code="401"/>] in a sealed frame.  The dispatcher receives
    the node, no NodeStreamError is recorded, and the close that follows
    emits the clean-close event, without isLoggedOut. *)
Lemma failure_401_counterexample :
  exists s1 s2,
    onMessage frame_failure401 true s_auth = (Ok tt, s1) /\
    received (world s1) = [failure401] /\
    _failure (conn s1) = None /\
    onClose s1 = (Ok tt, s2) /\
    events (world s2)
      = [EvClose (ConnectionClosedError None None "Connection Closed Cleanly")].
Proof.
  eexists _, _. split; [vm_compute; reflexivity|].
  split; [vm_compute; reflexivity|].
  split; [vm_compute; reflexivity|].
  split; vm_compute; reflexivity.
Qed.

Lemma failure_node_after_auth_witness :
  messageNodeReceived failure401 s_auth
    = (Ok tt, set_world (fun w => with_received (received w ++ [failure401]) w)
                        s_auth).
Proof.
  apply (failure_node_after_auth failure401 s_auth).
  - reflexivity.
  - vm_compute. reflexivity.
Defined.





Example two_frames_dispatched :
  received
    (world (onMessage (encodeInt 3 3 ++ sealed_iqA ++ encodeInt 3 3 ++ sealed_iqB)
                      true s_auth).2)
  = [iqA; iqB].
Proof. vm_compute. reflexivity. Qed.

(** The two modes on the sample connection: before pairing, and on the
    reconnect that follows it. *)
Lemma buildClientPayload_modes_witness :
  (exists p rd,
      _buildClientPayloadHandshake s_auth = (Ok p, s_auth) /\
      passive p = false /\ regData p = Some rd /\
      eRegid rd = [x00; x00; x12; x34] /\ eKeytype rd = [x05] /\
      eSkeyId rd = [x00; x00; x01]) /\
  (exists p,
      _buildClientPayloadHandshake
        (set_conn (with_authState (Some authState1)) s_auth)
      = (Ok p, set_conn (with_authState (Some authState1)) s_auth) /\
      passive p = true /\ regData p = None /\
      username p = Some 6281234 /\ device p = Some 7).
Proof.
  split.
  - destruct (proj1 (buildClientPayload_modes s_auth authState0 eq_refl) eq_refl)
      as (p & rd & E & Hp & Hrd & Hreg & _ & _ & Hkt & _ & Hsk & _).
    exists p, rd. repeat split; assumption.
  - apply (proj2 (buildClientPayload_modes
                    (set_conn (with_authState (Some authState1)) s_auth)
                    authState1 eq_refl)
             {| jid := "6281234:7@s.whatsapp.net" |}
             "6281234" "" "7" "s.whatsapp.net" 6281234 7);
      reflexivity.
Defined.

(** The first four ids of the sample connection, and the state after
    the first 99. *)
Lemma generateMessageId_ids_witness :
  (exists ids s',
      generateMessageIds 4 s_auth = (Ok ids, s') /\
      ids = ["0.1-1"; "0.1-2"; "0.1-3"; "0.1-4"] /\ NoDup ids) /\
  _messageTagPrefix (conn (generateMessageIds 99 s_auth).2) = None /\
  _messageTagCounter (conn (generateMessageIds 99 s_auth).2) = 0.
Proof.
  split.
  - destruct (generateMessageId_ids 4 s_auth) as (_ & _ & Hp).
    + vm_compute. split; discriminate.
    + destruct Hp as (ids & s' & E & Hids & Hnd).
      * vm_compute. discriminate.
      * exists ids, s'. split; [exact E|]. split; [|exact Hnd].
        rewrite Hids. vm_compute. reflexivity.
  - split; vm_compute; reflexivity.
Defined.

(** C4, counterexample: the certificate's [expires] equals the current
    time; the verification passes and the handshake finishes. *)
Lemma certificate_expiring_now_counterexample :
  Details_ParseFromString (sh_payload sh_now)
    = Ok {| issuer := "WhatsAppLongTerm1"; key := [];
            expires := Some (now (world s_hello)) |} /\
  (exists s1, _doHandshake_verify sh_now s_hello = (Ok tt, s1)) /\
  exists s2,
    onMessage serverHello_now true s_hello = (Ok tt, s2) /\
    _failure (conn s2) = None /\
    _sendCipher (conn s2) = Some 0%nat /\
    _keepAliveLoop (conn s2) = Some {| running := true; interval := 20 |}.
Proof.
  split; [vm_compute; reflexivity|].
  split; [eexists; vm_compute; reflexivity|].
  eexists. split; [vm_compute; reflexivity|].
  split; [vm_compute; reflexivity|].
  split; vm_compute; reflexivity.
Qed.

Lemma certificate_expiry_witness :
  (exists s1, _doHandshake_verify sh_now s_hello = (Ok tt, s1)) /\
  (exists s1, _doHandshake_verify sh_expired s_hello
              = (Raise (AuthenticationFailedError "Noise certificate expired"),
                 s1)).
Proof.
  split.
  - eexists.
    apply (proj1 (proj2
      (certificate_expiry (C := collaborators) sh_now s_hello 1%nat 2%nat
         [x65; x53; xf1; x00]
         {| cert_details := [x65; x53; xf1; x00]; cert_signature := [] |}
         {| issuer := "WhatsAppLongTerm1"; key := [];
            expires := Some 1700000000 |}
         1700000000
         eq_refl eq_refl eq_refl eq_refl eq_refl eq_refl eq_refl eq_refl))).
    reflexivity.
  - eexists.
    apply (proj2 (proj2
      (certificate_expiry (C := collaborators) sh_expired s_hello 1%nat 2%nat
         [x65; x53; xf0; xff]
         {| cert_details := [x65; x53; xf0; xff]; cert_signature := [] |}
         {| issuer := "WhatsAppLongTerm1"; key := [];
            expires := Some 1699999999 |}
         1699999999
         eq_refl eq_refl eq_refl eq_refl eq_refl eq_refl eq_refl eq_refl))).
    vm_compute. reflexivity.
Defined.

(** C2, counterexample: the certificate has expired.  The driver raises
    AuthenticationFailedError, which is recorded; nothing is sent after
    the client hello, in particular no close; no event is fired; the
    authentication future is still pending. *)
Lemma handshake_failure_counterexample :
  exists s2,
    onMessage serverHello_expired true s_hello = (Ok tt, s2) /\
    _failure (conn s2)
      = Some (AuthenticationFailedError "Noise certificate expired") /\
    wire (world s2) = wire (world s_hello) /\
    (SendClose 1000 ∉ wire (world s2)) /\
    events (world s2) = [] /\
    authDeferred (factory s2) = Some 1%nat /\
    deferreds (world s2) !! 1%nat = Some Pending.
Proof.
  eexists. split; [vm_compute; reflexivity|].
  split; [vm_compute; reflexivity|].
  split; [vm_compute; reflexivity|].
  split.
  { vm_compute. intros Hin. apply list_elem_of_singleton in Hin. discriminate. }
  split; [vm_compute; reflexivity|].
  split; vm_compute; reflexivity.
Qed.

Lemma handshake_exception_recorded_witness :
  exists s2,
    _doHandshake_errback (_doHandshake_resume sh_expired) s_hello = (Ok tt, s2) /\
    _failure (conn s2)
      = Some (AuthenticationFailedError "Noise certificate expired").
Proof.
  destruct (handshake_exception_recorded (_doHandshake_resume sh_expired)
              s_hello
              (AuthenticationFailedError "Noise certificate expired")
              (_doHandshake_resume sh_expired s_hello).2)
    as (s2 & E & Hf & _).
  - right. exists sh_expired. reflexivity.
  - vm_compute. reflexivity.
  - exists s2. split; assumption.
Defined.

(** * Concrete runs of the further properties *)

Import MoreRuns.

Lemma onMessage_without_recvCipher_witness :
  onMessage frame_overlong true s0 = (Ok tt, s0).
Proof.
  apply onMessage_without_recvCipher; reflexivity.
Defined.

Lemma onMessage_splits_frames_witness :
  onMessage (concat (frame <$> [sealed_iqA; sealed_iqB])) true s_auth
  = onMessage_frames [sealed_iqA; sealed_iqB] s_auth.
Proof.
  apply onMessage_splits_frames.
  - vm_compute. reflexivity.
  - repeat constructor.
Defined.

Lemma onMessage_frame_decrypt_failure_witness :
  exists s',
    onMessage_frame sealed_wrong_nonce s_auth = (Ok tt, s') /\
    _failure (conn s') = Some (ExternalError "InvalidTag" "") /\
    wire (world s') = wire (world s_auth) ++ [SendClose 1000].
Proof.
  destruct (onMessage_frame_decrypt_failure (C := collaborators)
              sealed_wrong_nonce 0%nat 0%nat (ExternalError "InvalidTag" "")
              s_auth) as (s' & E & Hf & Hw & _).
  - vm_compute. reflexivity.
  - reflexivity.
  - exists s'. split; [exact E|]. split; assumption.
Defined.

Lemma onMessage_frame_stream_end_witness :
  onMessage_frame sealed_stream_end s_auth
  = (Ok tt, set_conn (with_recvCipher (Some 1%nat)) s_auth).
Proof.
  apply (onMessage_frame_stream_end (C := collaborators)
           sealed_stream_end 0%nat 1%nat x00 [] s_auth).
  - vm_compute. reflexivity.
  - reflexivity.
  - reflexivity.
  - reflexivity.
Defined.

Lemma onMessage_decoding_error_witness :
  onMessage (concat (frame <$> [sealed_empty; sealed_iqA_1])) true s_auth
  = (Raise (IndexError "index out of range"),
     set_conn (with_recvCipher (Some 1%nat)) s_auth).
Proof.
  apply (onMessage_decoding_error (C := collaborators)
           sealed_empty 0%nat 1%nat [] (IndexError "index out of range")
           [sealed_iqA_1] true s_auth).
  - vm_compute. reflexivity.
  - repeat constructor.
  - vm_compute. reflexivity.
  - reflexivity.
  - left. split; reflexivity.
Defined.

Lemma sendMessageNode_sends_witness :
  sendMessageNode iqA s_auth
  = (Ok tt,
     set_world (fun w => with_wire (wire w ++ [SendMessage (frame sealed_iqA) true]) w)
               (set_conn (with_sendCipher (Some 1%nat)) s_auth)).
Proof.
  apply (sendMessageNode_sends (C := collaborators)
           iqA [x01] 0%nat 1%nat sealed_iqA s_auth).
  - reflexivity.
  - vm_compute. reflexivity.
  - reflexivity.
Defined.

Lemma send_receive_roundtrip_witness :
  exists payload,
    wire (world (sendMessageNode iqA s_auth).2)
      = wire (world s_auth) ++ [SendMessage payload true] /\
    onMessage payload true s_auth
    = messageNodeReceived iqA (set_conn (with_recvCipher (Some 1%nat)) s_auth).
Proof.
  apply (send_receive_roundtrip (C := collaborators)
           iqA [x01] 0%nat 1%nat sealed_iqA 0%nat 1%nat s_auth s_auth true).
  - reflexivity.
  - vm_compute. reflexivity.
  - reflexivity.
  - vm_compute. reflexivity.
  - vm_compute. reflexivity.
  - vm_compute. reflexivity.
  - reflexivity.
  - reflexivity.
Defined.

Lemma request_sends_witness :
  exists s',
    request iqA s_auth = (Ok 3%nat, s') /\
    _pendingRequest (conn s') = <["A" := 3%nat]> (_pendingRequest (conn s_auth)).
Proof.
  destruct (request_sends (C := collaborators)
              iqA "A" [x01] 0%nat 1%nat sealed_iqA s_auth)
    as (s' & E & _ & _ & Hp & _).
  - reflexivity.
  - reflexivity.
  - vm_compute. reflexivity.
  - reflexivity.
  - exists s'. split; assumption.
Defined.

Lemma keepAlive_loop_pings_witness :
  exists s',
    keepAlive_loop s_auth = (Ok 3%nat, s') /\
    _pendingRequest (conn s') = <["0.1-1" := 3%nat]> (_pendingRequest (conn s_auth)).
Proof.
  destruct (keepAlive_loop_pings (C := collaborators)
              [x04] 0%nat 1%nat [x00; x00; x04] s_auth)
    as (s' & E & Hp & _).
  - vm_compute. split; discriminate.
  - vm_compute. reflexivity.
  - vm_compute. reflexivity.
  - reflexivity.
  - exists s'. split; assumption.
Defined.

Lemma sendReadReceipt_returns_witness :
  (exists e, sendReadReceipt (MS := messages) inbox_message s0
             = (Ok (fail e), s0)) /\
  (exists s', sendReadReceipt (MS := messages) inbox_message s_auth
              = (Ok succeed_None, s')).
Proof.
  split.
  - apply (proj1 (proj2 (sendReadReceipt_returns (MS := messages)
                           inbox_message s0))).
    reflexivity.
  - destruct (proj2 (proj2 (sendReadReceipt_returns (MS := messages)
                              inbox_message s_auth))
                "6285@s.whatsapp.net" "3EB0" [x04] 0%nat 1%nat
                [x00; x00; x04]) as (s' & E & _).
    + reflexivity.
    + reflexivity.
    + vm_compute. reflexivity.
    + vm_compute. reflexivity.
    + reflexivity.
    + exists s'. exact E.
Defined.

Lemma messageNodeReceived_cases_witness :
  messageNodeReceived ping s_auth
  = (Ok tt, set_world (fun w => with_received (received w ++ [ping]) w) s_auth).
Proof.
  apply (proj1 (proj2 (messageNodeReceived_cases ping s_auth))).
  reflexivity.
Defined.

Lemma failure_node_before_auth_witness :
  exists s1 s2,
    messageNodeReceived failure401 s_handshaken = (Ok tt, s1) /\
    _failure (conn s1) = Some (NameError "attrs") /\
    onClose s1 = (Ok tt, s2) /\
    deferreds (world s2) !! 1%nat = Some (Errbacked (NameError "attrs")).
Proof.
  destruct (failure_node_before_auth failure401 1%nat s_handshaken)
    as (s1 & s2 & E1 & Hf & _ & _ & _ & E2 & Hd & _).
  - reflexivity.
  - split; vm_compute; reflexivity.
  - exists s1, s2. repeat split; assumption.
Defined.

Lemma handshake_succeeds_witness :
  exists s',
    onMessage serverHello0 true s_hello = (Ok tt, s') /\
    _sendCipher (conn s') = Some 0%nat /\
    _recvCipher (conn s') = Some 0%nat /\
    wire (world s') = wire (world s_hello) ++ [SendMessage [x00; x00; x01; x00] true].
Proof.
  destruct (handshake_succeeds (C := collaborators)
              serverHello0 true s_hello 2%nat
              {| clientHello := None;
                 serverHello := Some {| sh_ephemeral := [x01];
                                        sh_static := [x02];
                                        sh_payload := [] |};
                 clientFinish := None |}
              {| sh_ephemeral := [x01]; sh_static := [x02]; sh_payload := [] |}
              1%nat 2%nat []
              {| cert_details := []; cert_signature := [] |}
              {| issuer := "WhatsAppLongTerm1"; key := []; expires := None |}
              (match (_buildClientPayloadHandshake s_hello).1 with
               | Ok p => p
               | Raise _ =>
                   {| connectReason := 0; connectType := 0; passive := false;
                      regData := None; username := None; device := None;
                      userAgent :=
                        {| ua_appVersion := {| primary := None;
                                               secondary := None;
                                               tertiary := None |};
                           ua_platform := 0; ua_releaseChannel := 0;
                           ua_mcc := ""; ua_mnc := ""; ua_osVersion := "";
                           ua_manufacturer := ""; ua_device := "";
                           ua_osBuildNumber := "";
                           ua_localeLanguageIso6391 := "";
                           ua_localeCountryIso31661Alpha2 := "" |};
                      webInfo := {| webSubPlatform := 0 |} |}
               end)
              3%nat [x00] 0%nat 0%nat)
    as (s' & E & Hs & Hr & _ & _ & _ & Hw & _).
  - vm_compute. reflexivity.
  - vm_compute. reflexivity.
  - reflexivity.
  - reflexivity.
  - vm_compute. reflexivity.
  - reflexivity.
  - reflexivity.
  - reflexivity.
  - reflexivity.
  - reflexivity.
  - reflexivity.
  - intros e [=].
  - vm_compute. reflexivity.
  - vm_compute. reflexivity.
  - exists s'. split; [exact E|]. split; [exact Hs|]. split; [exact Hr|].
    rewrite Hw. vm_compute. reflexivity.
Defined.

Lemma certificate_checks_witness :
  _doHandshake_verify
    {| sh_ephemeral := [x01]; sh_static := [x02]; sh_payload := [] |} s_hello
  = (Ok tt, set_conn (with_noiseHandshakeState (Some 2%nat)) s_hello).
Proof.
  apply (proj1 (proj2 (proj2 (proj2
    (certificate_checks (C := collaborators)
       {| sh_ephemeral := [x01]; sh_static := [x02]; sh_payload := [] |}
       s_hello 1%nat 2%nat []
       {| cert_details := []; cert_signature := [] |}
       {| issuer := "WhatsAppLongTerm1"; key := []; expires := None |}
       eq_refl eq_refl eq_refl eq_refl))))); reflexivity.
Defined.

Lemma authenticate_sends_hello_witness :
  exists s',
    authenticate s0 = (Ok (Some 1%nat), s') /\
    wire (world s') = [SendMessage [x57; x41; x05; x02; x00; x00; x00] true].
Proof.
  destruct (authenticate_sends_hello (C := collaborators) s0 [] None 1%nat)
    as (s' & E & _ & _ & Hw & _).
  - reflexivity.
  - exists s'. split; [exact E|]. rewrite Hw. vm_compute. reflexivity.
Defined.

Lemma onClose_consumes_failure_witness :
  exists s1 s2,
    onClose (record_failure (NodeStreamError "401") s0) = (Ok tt, s1) /\
    _failure (conn s1) = None /\
    onClose s1 = (Ok tt, s2).
Proof.
  destruct (onClose_consumes_failure (record_failure (NodeStreamError "401") s0))
    as (s1 & s2 & E1 & _ & Hf & _ & _ & E2 & _).
  - split; [|split]; cbn.
    + by intros d [= <-].
    + by intros d [= <-].
    + intros d [= <-]. discriminate.
  - exists s1, s2. repeat split; assumption.
Defined.

Lemma restart_reconnects_once_witness :
  exists s1 s2,
    _restart s_auth = (Ok tt, s1) /\
    clientConnectionLost s1 = (Ok true, s2) /\
    authState (conn s2) = Some authState0 /\
    clientConnectionLost s2 = (Ok false, s2).
Proof.
  destruct (restart_reconnects_once s_auth authState0)
    as (s1 & s2 & E1 & _ & _ & _ & _ & E2 & Hc & _ & _ & _ & _ & E3 & _).
  - vm_compute. reflexivity.
  - exists s1, s2. split; [exact E1|]. split; [exact E2|].
    split; [by rewrite Hc|exact E3].
Defined.

Lemma onOpen_cases_witness :
  exists s',
    onOpen s0 = (Ok tt, s') /\
    events (world s') = [EvOpen] /\
    deferreds (world s') !! 0%nat = Some (Called VConnection).
Proof.
  destruct (proj1 (onOpen_cases s0)) as (s' & E & Hev & _ & _ & Hd).
  - reflexivity.
  - split; [|split]; cbn.
    + by intros d [= <-].
    + by intros d [= <-].
    + intros d [= <-]. discriminate.
  - exists s'. split; [exact E|]. split; [exact Hev|].
    apply (Hd 0%nat). reflexivity.
Defined.

Lemma generateMessageIds_all_witness :
  exists s',
    generateMessageIds 100 s_auth
      = (Ok (nth_messageTag 0 <$> seq 0 100), s') /\
    _messageTagCounter (conn s') = 1 /\
    nth_messageTag (C := collaborators) 0 98 = "0.1-99" /\
    nth_messageTag (C := collaborators) 0 99 = "2.3-1".
Proof.
  destruct (generateMessageIds_all 100 s_auth) as (s' & E & Hc & _).
  - vm_compute. reflexivity.
  - vm_compute. reflexivity.
  - exists s'. split; [exact E|]. split; [exact Hc|].
    split; vm_compute; reflexivity.
Defined.

